(** * Therapy outline service

    A shallow embedding of [service/therapy_outline_service.py] and the
    properties of its generation pipeline.

    The service talks to four collaborators (memory lookup, patient lookup,
    the outline repository, the chat-completion client) and a logger.  Each
    call to one of them is an [Event]; a method of the service is a program
    [Prog] over these events, and [run] interprets a program against an
    arbitrary state-passing handler while recording the calls it makes.
    Python values, exceptions and the [str]/[repr] renderings used by the
    prompt's f-string are modelled explicitly. *)

From Stdlib Require Import List String Ascii ZArith Bool Lia Floats DecimalString.
Import ListNotations.

Local Open Scope list_scope.
Local Open Scope string_scope.

Set Warnings "-register-all,-inexact-float".

(* ------------------------------------------------------------------ *)
(** ** Strings *)

(** The double quote, a line feed and the other control characters that
    the renderings below have to name. *)
Definition dquote : ascii := "034"%char.
Definition squote : ascii := "039"%char.
Definition backslash : ascii := "092"%char.
Definition backtick : ascii := "096"%char.
Definition LF : ascii := "010"%char.
Definition CR : ascii := "013"%char.
Definition TAB : ascii := "009"%char.

Definition chr (a : ascii) : string := String a EmptyString.

(** [qt s] is [s] between double quotes. *)
Definition qt (s : string) : string := chr dquote ++ s ++ chr dquote.

Fixpoint join (sep : string) (l : list string) : string :=
  match l with
  | [] => EmptyString
  | [x] => x
  | x :: rest => x ++ sep ++ join sep rest
  end.

Fixpoint is_prefix (p s : string) : bool :=
  match p, s with
  | EmptyString, _ => true
  | String a p', String b s' => Ascii.eqb a b && is_prefix p' s'
  | String _ _, EmptyString => false
  end.

(** [contains needle s]: Python's [needle in s]. *)
Fixpoint contains (needle s : string) : bool :=
  is_prefix needle s ||
  match s with
  | EmptyString => false
  | String _ s' => contains needle s'
  end.

(** The same as a proposition. *)
Definition Substring (needle s : string) : Prop :=
  exists pre post, s = pre ++ needle ++ post.

Fixpoint mem_char (a : ascii) (s : string) : bool :=
  match s with
  | EmptyString => false
  | String b s' => Ascii.eqb a b || mem_char a s'
  end.

(* ------------------------------------------------------------------ *)
(** ** Python values *)

(** The values a [model_dump] or [json.loads] produces.  A dict keeps its
    insertion order and has string keys.  A float is carried by a numeral
    that denotes it, which [py_repr] prints as it stands; any other object
    ([datetime], an id) by its class name and its [repr], which stands for
    its [str] as well. *)
Inductive PyValue : Type :=
| PyNone
| PyBool (b : bool)
| PyInt (z : Z)
| PyFloat (repr : string)
| PyStr (s : string)
| PyList (items : list PyValue)
| PyDict (items : list (string * PyValue))
| PyObject (cls : string) (repr : string).

Definition type_name (v : PyValue) : string :=
  match v with
  | PyNone => "NoneType"
  | PyBool _ => "bool"
  | PyInt _ => "int"
  | PyFloat _ => "float"
  | PyStr _ => "str"
  | PyList _ => "list"
  | PyDict _ => "dict"
  | PyObject cls _ => cls
  end.

Definition Z_to_string (z : Z) : string :=
  NilZero.string_of_int (Z.to_int z).

Definition hex_digit (n : nat) : ascii :=
  match n with
  | 0 => "0" | 1 => "1" | 2 => "2" | 3 => "3" | 4 => "4" | 5 => "5"
  | 6 => "6" | 7 => "7" | 8 => "8" | 9 => "9" | 10 => "a" | 11 => "b"
  | 12 => "c" | 13 => "d" | 14 => "e" | _ => "f"
  end%char.

(** One character of [repr(str)], inside quotes [quote].  Bytes above 127
    belong to the UTF-8 encoding of a non-ASCII character and are kept;
    that Python escapes the non-ASCII characters it cannot print is not
    modelled. *)
Definition repr_char (quote a : ascii) : string :=
  if Ascii.eqb a backslash then String backslash (chr backslash)
  else if Ascii.eqb a quote then String backslash (chr quote)
  else if Ascii.eqb a LF then String backslash "n"
  else if Ascii.eqb a CR then String backslash "r"
  else if Ascii.eqb a TAB then String backslash "t"
  else
    let n := nat_of_ascii a in
    if (n <? 32)%nat || (n =? 127)%nat
    then String backslash (String "x" (String (hex_digit (n / 16)) (chr (hex_digit (n mod 16)))))
    else chr a.

Fixpoint repr_chars (quote : ascii) (s : string) : string :=
  match s with
  | EmptyString => EmptyString
  | String a s' => repr_char quote a ++ repr_chars quote s'
  end.

(** [repr] of a [str]: single quotes, unless the text has a single quote
    and no double quote. *)
Definition str_repr (s : string) : string :=
  let quote := if mem_char squote s && negb (mem_char dquote s) then dquote else squote in
  chr quote ++ repr_chars quote s ++ chr quote.

Fixpoint py_repr (v : PyValue) : string :=
  match v with
  | PyNone => "None"
  | PyBool true => "True"
  | PyBool false => "False"
  | PyInt z => Z_to_string z
  | PyFloat r => r
  | PyStr s => str_repr s
  | PyList items => "[" ++ join ", " (map py_repr items) ++ "]"
  | PyDict items =>
      "{" ++ join ", " (map (fun '(k, x) => str_repr k ++ ": " ++ py_repr x) items) ++ "}"
  | PyObject _ r => r
  end.

(** [str(v)], which is what an f-string field [{v}] renders. *)
Definition py_str (v : PyValue) : string :=
  match v with
  | PyStr s => s
  | _ => py_repr v
  end.

(* ------------------------------------------------------------------ *)
(** ** Exceptions *)

(** The exceptions of the service and of the interpreter, and [OtherError]
    for whatever class a collaborator or a library raises. *)
Inductive Exception : Type :=
| ValueError (msg : string)
| TypeError (msg : string)
| KeyError (key : string)
| IndexError (msg : string)
| AttributeError (msg : string)
| OtherError (cls : string) (msg : string).

Definition Result (A : Type) : Type := (Exception + A)%type.

Definition ok {A} (a : A) : Result A := inr a.
Definition err {A} (e : Exception) : Result A := inl e.

Definition rbind {A B} (r : Result A) (f : A -> Result B) : Result B :=
  match r with
  | inl e => inl e
  | inr a => f a
  end.

(** A list comprehension whose element expression may raise: elements are
    evaluated left to right and the first exception ends it. *)
Fixpoint comprehension {A B} (f : A -> Result B) (l : list A) : Result (list B) :=
  match l with
  | [] => ok []
  | x :: rest =>
      rbind (f x) (fun y => rbind (comprehension f rest) (fun ys => ok (y :: ys)))
  end.

(** [v[key]] for a string key. *)
Fixpoint dict_get (key : string) (items : list (string * PyValue)) : option PyValue :=
  match items with
  | [] => None
  | (k, x) :: rest => if String.eqb k key then Some x else dict_get key rest
  end.

Definition py_getitem (v : PyValue) (key : string) : Result PyValue :=
  match v with
  | PyDict items =>
      match dict_get key items with
      | Some x => ok x
      | None => err (KeyError key)
      end
  | PyList _ => err (TypeError "list indices must be integers or slices, not str")
  | PyStr _ => err (TypeError "string indices must be integers, not 'str'")
  | _ => err (TypeError ("'" ++ type_name v ++ "' object is not subscriptable"))
  end.

(** Splits UTF-8 text into its characters: a byte [10xxxxxx] continues the
    character before it. *)
Definition is_continuation (a : ascii) : bool :=
  let n := nat_of_ascii a in (128 <=? n)%nat && (n <? 192)%nat.

Fixpoint characters (s : string) : list string :=
  match s with
  | EmptyString => []
  | String a s' =>
      match characters s' with
      | c :: rest =>
          match s' with
          | String b _ => if is_continuation b then (String a c) :: rest else chr a :: c :: rest
          | EmptyString => chr a :: c :: rest
          end
      | [] => [chr a]
      end
  end.

(** [for x in v]: the elements of a list, the keys of a dict, the
    characters of a string. *)
Definition py_iter (v : PyValue) : Result (list PyValue) :=
  match v with
  | PyList items => ok items
  | PyDict items => ok (map (fun kv => PyStr (fst kv)) items)
  | PyStr s => ok (map PyStr (characters s))
  | _ => err (TypeError ("'" ++ type_name v ++ "' object is not iterable"))
  end.

(* ------------------------------------------------------------------ *)
(** ** Domain model *)

Module model.

Inductive StepType : Type := INTRODUCTION | NORMAL | CONCLUSION.

Inductive Voice : Type := alloy | echo | fable | onyx | nova | shimmer.

Record Script : Type := { voice : Voice; text : string }.

(** Modelled from the spec: the [Step] class of the [model] package is
    not part of the sources.  A step has an ordinal position, a
    description, guidance strings, a category tag, media URLs and a
    script. *)
Record Step : Type := {
  step : Z;
  description : string;
  guide : list string;
  type : StepType;
  media_urls : list string;
  script : Script
}.

(** Modelled from the spec: the [TherapyOutline] class of the [model]
    package is not part of the sources.  An outline is the aggregate of a
    patient id, a memory id and an ordered sequence of steps; nothing
    more is checked when one is built. *)
Record TherapyOutline : Type := {
  patient_id : string;
  memory_id : string;
  steps : list Step
}.

(** Modelled from the spec: the error the model classes raise when the
    keyword arguments they are built from are rejected; the model package
    is not part of the sources. *)
Definition ValidationError (cls field : string) : Exception :=
  OtherError "ValidationError" ("1 validation error for " ++ cls ++ ": " ++ field).

Definition field {A} (cls name : string) (read : PyValue -> option A)
  (kwargs : list (string * PyValue)) : Result A :=
  match dict_get name kwargs with
  | Some v =>
      match read v with
      | Some a => ok a
      | None => err (ValidationError cls name)
      end
  | None => err (ValidationError cls name)
  end.

Definition as_int (v : PyValue) : option Z :=
  match v with
  | PyInt z => Some z
  | _ => None
  end.

Definition as_str (v : PyValue) : option string :=
  match v with
  | PyStr s => Some s
  | _ => None
  end.

Fixpoint all_some {A} (l : list (option A)) : option (list A) :=
  match l with
  | [] => Some []
  | Some a :: rest => option_map (cons a) (all_some rest)
  | None :: _ => None
  end.

Definition as_str_list (v : PyValue) : option (list string) :=
  match v with
  | PyList items => all_some (map as_str items)
  | _ => None
  end.

Definition as_StepType (v : PyValue) : option StepType :=
  match v with
  | PyStr s =>
      if String.eqb s "INTRODUCTION" then Some INTRODUCTION
      else if String.eqb s "NORMAL" then Some NORMAL
      else if String.eqb s "CONCLUSION" then Some CONCLUSION
      else None
  | _ => None
  end.

Definition as_Voice (v : PyValue) : option Voice :=
  match v with
  | PyStr s =>
      if String.eqb s "alloy" then Some alloy
      else if String.eqb s "echo" then Some echo
      else if String.eqb s "fable" then Some fable
      else if String.eqb s "onyx" then Some onyx
      else if String.eqb s "nova" then Some nova
      else if String.eqb s "shimmer" then Some shimmer
      else None
  | _ => None
  end.

(** Modelled from the spec: the validating constructor of the script of a
    step, missing with the model package.  Both fields are required, the
    voice is one of the enumerated names, the text is a string; other
    keywords are ignored. *)
Definition Script_init (kwargs : list (string * PyValue)) : Result Script :=
  rbind (field "Script" "voice" as_Voice kwargs) (fun voice =>
  rbind (field "Script" "text" as_str kwargs) (fun text =>
  ok {| voice := voice; text := text |})).

Definition as_Script (v : PyValue) : option Script :=
  match v with
  | PyDict kwargs =>
      match Script_init kwargs with
      | inr sc => Some sc
      | inl _ => None
      end
  | _ => None
  end.

(** Modelled from the spec: the validating constructor of [Step], missing
    with the model package.  Every field of the data model is required and
    has the type the data model gives it: an integer position, a string
    description, arrays of strings for the guidance and the media URLs, an
    enumerated category tag and a script; other keywords are ignored. *)
Definition Step_init (kwargs : list (string * PyValue)) : Result Step :=
  rbind (field "Step" "step" as_int kwargs) (fun step =>
  rbind (field "Step" "description" as_str kwargs) (fun description =>
  rbind (field "Step" "guide" as_str_list kwargs) (fun guide =>
  rbind (field "Step" "type" as_StepType kwargs) (fun type =>
  rbind (field "Step" "media_urls" as_str_list kwargs) (fun media_urls =>
  rbind (field "Step" "script" as_Script kwargs) (fun script =>
  ok {| step := step; description := description; guide := guide;
        type := type; media_urls := media_urls; script := script |})))))).


End model.

(** Modelled from the spec: the memory and patient records are owned by
    collaborators outside the sources.  The service reads a memory's
    [patient_id] and the [model_dump(by_alias=True)] of both; a record that
    was found is true when tested. *)
Record Memory : Type := {
  patient_id : string;
  memory_dump : PyValue
}.

Record Patient : Type := {
  patient_dump : PyValue
}.

(* ------------------------------------------------------------------ *)
(** ** The chat-completion client *)

Module openai.

Record ContentPart : Type := { type : string; text : string }.

Record Message : Type := { role : string; content : list ContentPart }.

(** The keyword arguments of [chat.completions.create]. *)
Record Request : Type := {
  model : string;
  messages : list Message;
  temperature : float
}.

(** The part of a completion the service reads: [choices[i].message.content],
    which the client types as an optional string. *)
Record Choice : Type := { message_content : option string }.

Record ChatCompletion : Type := { choices : list Choice }.

End openai.

(* ------------------------------------------------------------------ *)
(** ** Programs over collaborator calls *)

(** One constructor per method the service calls on a collaborator; the
    index is the type of what the call returns. *)
Inductive Event : Type -> Type :=
| LoggerInfo (fmt : string) (arg : PyValue) : Event unit
| GetMemoryById (memory_id : string) : Event (option Memory)
| GetPatientById (patient_id : string) : Event Patient
| ChatCompletionsCreate (request : openai.Request) : Event openai.ChatCompletion
| SaveTherapyOutline (therapy_outline : model.TherapyOutline) : Event string
| RepositoryGetTherapyOutlineByMemoryId (memory_id : string) : Event model.TherapyOutline.

(** A method body: it returns, raises, or calls a collaborator and goes on
    with what the call returned.  There is no handler construct: the
    service catches nothing that a collaborator raises. *)
Inductive Prog (A : Type) : Type :=
| Ret (a : A)
| Raise (e : Exception)
| Call (X : Type) (ev : Event X) (k : X -> Prog A).

Arguments Ret {A} a.
Arguments Raise {A} e.
Arguments Call {A X} ev k.

Fixpoint bind {A B} (p : Prog A) (f : A -> Prog B) : Prog B :=
  match p with
  | Ret a => f a
  | Raise e => Raise e
  | Call ev k => Call ev (fun x => bind (k x) f)
  end.

Definition call {X} (ev : Event X) : Prog X := Call ev Ret.

(** Runs pure code that may raise. *)
Definition lift {A} (r : Result A) : Prog A :=
  match r with
  | inl e => Raise e
  | inr a => Ret a
  end.

Notation "x <- p ;; q" := (bind p (fun x => q))
  (at level 61, p at next level, right associativity).
Notation "p ;; q" := (bind p (fun _ => q))
  (at level 61, right associativity).

(** A recorded call and what the collaborator answered. *)
Inductive Entry : Type :=
| Called (X : Type) (ev : Event X) (answer : Result X).

Arguments Called {X} ev answer.

Definition Trace : Type := list Entry.

(** The collaborators: each call answers or raises, and moves their
    shared state. *)
Definition Handler (S : Type) : Type :=
  forall X, Event X -> S -> Result X * S.

Fixpoint run {S A} (h : Handler S) (p : Prog A) (s : S) : Result A * S * Trace :=
  match p with
  | Ret a => (inr a, s, [])
  | Raise e => (inl e, s, [])
  | Call ev k =>
      match h _ ev s with
      | (inl e, s1) => (inl e, s1, [Called ev (inl e)])
      | (inr x, s1) =>
          let '(r, s2, tr) := run h (k x) s1 in
          (r, s2, Called ev (inr x) :: tr)
      end
  end.

(** Observations on a trace. *)
Definition chat_request (en : Entry) : option openai.Request :=
  match en with
  | Called (ChatCompletionsCreate request) _ => Some request
  | _ => None
  end.

Definition saved_outline (en : Entry) : option model.TherapyOutline :=
  match en with
  | Called (SaveTherapyOutline o) _ => Some o
  | _ => None
  end.

Definition failure (en : Entry) : option Exception :=
  match en with
  | Called _ (inl e) => Some e
  | Called _ (inr _) => None
  end.

Fixpoint collect {A B} (f : A -> option B) (l : list A) : list B :=
  match l with
  | [] => []
  | x :: rest =>
      match f x with
      | Some y => y :: collect f rest
      | None => collect f rest
      end
  end.

(** What a successful lookup or completion call answered. *)
Definition memory_lookup (en : Entry) : option (option Memory) :=
  match en with
  | Called (GetMemoryById _) (inr memory) => Some memory
  | _ => None
  end.

Definition completion (en : Entry) : option openai.ChatCompletion :=
  match en with
  | Called (ChatCompletionsCreate _) (inr response) => Some response
  | _ => None
  end.

Definition chat_requests (tr : Trace) : list openai.Request := collect chat_request tr.
Definition saved_outlines (tr : Trace) : list model.TherapyOutline := collect saved_outline tr.
Definition failures (tr : Trace) : list Exception := collect failure tr.
Definition memory_lookups (tr : Trace) : list (option Memory) := collect memory_lookup tr.
Definition completions (tr : Trace) : list openai.ChatCompletion := collect completion tr.

(** The two things a run is observed by: what the method returned or
    raised, and the calls it made. *)
Definition outcome {S A} (h : Handler S) (p : Prog A) (s : S) : Result A :=
  fst (fst (run h p s)).

Definition final_state {S A} (h : Handler S) (p : Prog A) (s : S) : S :=
  snd (fst (run h p s)).

Definition calls {S A} (h : Handler S) (p : Prog A) (s : S) : Trace :=
  snd (run h p s).

(* ------------------------------------------------------------------ *)
(** ** [json.JSONDecodeError] *)

(** The error of [json.loads]: a message, the document and the index of
    the character where decoding stopped. *)
Record JSONDecodeError : Type := {
  msg : string;
  doc : string;
  pos : nat
}.

(** Line and column of character [n] of [s], both counted from 1;
    [line] and [col] are those of the first character of [s]. *)
Fixpoint line_col (s : string) (n line col : nat) : nat * nat :=
  match n, s with
  | O, _ => (line, col)
  | _, EmptyString => (line, col + n)
  | S n', String a s' =>
      if is_continuation a then line_col s' n line col
      else if Ascii.eqb a LF then line_col s' n' (S line) 1
      else line_col s' n' line (S col)
  end.

Definition nat_to_string (n : nat) : string := Z_to_string (Z.of_nat n).

(** [str(e)]: the message followed by the position. *)
Definition JSONDecodeError_str (e : JSONDecodeError) : string :=
  let '(lineno, colno) := line_col (doc e) (pos e) 1 1 in
  msg e ++ ": line " ++ nat_to_string lineno ++ " column " ++ nat_to_string colno
        ++ " (char " ++ nat_to_string (pos e) ++ ")".

(* ------------------------------------------------------------------ *)
(** ** The service *)

Definition list_getitem0 {A} (l : list A) : Result A :=
  match l with
  | x :: _ => ok x
  | [] => err (IndexError "list index out of range")
  end.

(** [memory.patient_id] on what the memory lookup returned. *)
Definition getattr_patient_id (memory : option Memory) : Result string :=
  match memory with
  | Some m => ok (patient_id m)
  | None => err (AttributeError "'NoneType' object has no attribute 'patient_id'")
  end.

Definition py_of_option (o : option string) : PyValue :=
  match o with
  | Some s => PyStr s
  | None => PyNone
  end.

Section TherapyOutlineService.

(** [json.loads] on a [str], from the standard library. *)
Variable json_loads : string -> JSONDecodeError + PyValue.

(** [Step] applied to keyword arguments: the validating constructor of
    the model class. *)
Variable Step_init : list (string * PyValue) -> Result model.Step.

Definition get_therapy_outline_by_memory_id (memory_id : string)
  : Prog model.TherapyOutline :=
  call (RepositoryGetTherapyOutlineByMemoryId memory_id).

(** The client types the content it hands over as optional, hence the
    argument; [json.loads(None)] is a [TypeError], which the [except]
    clause does not catch. *)
Definition _parse_json_output (output : option string) : Result PyValue :=
  match output with
  | None => err (TypeError "the JSON object must be str, bytes or bytearray, not NoneType")
  | Some text =>
      match json_loads text with
      | inr v => ok v
      | inl e => err (ValueError ("Invalid JSON output from OpenAI: " ++ JSONDecodeError_str e))
      end
  end.

Definition _construct_therapy_outline_prompt (input_data : PyValue) : Result string :=
  rbind (py_getitem input_data "memory_details") (fun memory_details =>
  rbind (py_getitem input_data "patient_details") (fun patient_details =>
  ok (join (chr LF) [
    EmptyString;
    "        Generate a therapy outline in the following JSON format:";
    EmptyString;
    "        {";
    "          " ++ qt "patient_id" ++ ": " ++ qt "string" ++ ",";
    "          " ++ qt "memory_id" ++ ": " ++ qt "string" ++ ",";
    "          " ++ qt "steps" ++ ": [";
    "            {";
    "              " ++ qt "step" ++ ": " ++ qt "int" ++ ",";
    "              " ++ qt "description" ++ ": " ++ qt "string" ++ ",";
    "              " ++ qt "guide" ++ ": [" ++ qt "string" ++ ", " ++ qt "..." ++ "],";
    "              " ++ qt "type" ++ ": " ++ qt "string (INTRODUCTION, NORMAL, CONCLUSION)" ++ ",";
    "              " ++ qt "media_urls" ++ ": [" ++ qt "string" ++ ", " ++ qt "..." ++ "],";
    "              " ++ qt "script" ++ ": {";
    "                " ++ qt "voice" ++ ": "
                      ++ qt "string (alloy, echo, fable, onyx, nova, shimmer)" ++ ",";
    "                " ++ qt "text" ++ ": " ++ qt "string";
    "              }";
    "            }";
    "          ]";
    "        }";
    EmptyString;
    "        Memory Details:";
    "        " ++ py_str memory_details;
    EmptyString;
    "        Patient Details:";
    "        " ++ py_str patient_details;
    EmptyString;
    "        Requirements:";
    "        - Use the patient details and memory details to generate personalized steps and guidance.";
    "        - Include associated media URLs for each step where applicable.";
    "        - Follow a logical structure: introduction, main session, conclusion.";
    "        - Provide guidance points for each step in the `guide` field.";
    "        - Each step should include a script with:";
    "          - A calm, relaxing, and therapist-like tone.";
    "          - Simple and empathetic language to guide reflective thinking and encourage memories.";
    "        - Choose one consistent voice for all steps from the following options: alloy, echo, fable, onyx, nova, shimmer.";
    "        - Ensure the JSON format matches the provided structure.";
    "        - Provide the output as a valid JSON object without any extra formatting or code block markers.";
    "        "
  ]))).

Definition system_message : openai.Message :=
  {| openai.role := "system";
     openai.content :=
       [ {| openai.type := "text";
            openai.text := "You are an AI assistant specializing in reminiscence therapy." |} ] |}.

Definition user_message (prompt : string) : openai.Message :=
  {| openai.role := "user";
     openai.content := [ {| openai.type := "text"; openai.text := prompt |} ] |}.

Definition _generate_therapy_outline (input_data : PyValue) : Prog PyValue :=
  prompt <- lift (_construct_therapy_outline_prompt input_data) ;;
  response <- call (ChatCompletionsCreate
                      {| openai.model := "gpt-4o";
                         openai.messages := [ system_message; user_message prompt ];
                         openai.temperature := 0.2 |}) ;;
  output <- lift (rbind (list_getitem0 (openai.choices response))
                        (fun choice => ok (openai.message_content choice))) ;;
  call (LoggerInfo "Therapy outline generated by OpenAI: %s" (py_of_option output)) ;;
  lift (_parse_json_output output).

(** [Step] applied to the unpacked [step]: what is unpacked has to be a
    mapping.  The message names the class without the module Python puts
    before it. *)
Definition Step_of (step : PyValue) : Result model.Step :=
  match step with
  | PyDict kwargs => Step_init kwargs
  | _ => err (TypeError ("Step() argument after ** must be a mapping, not " ++ type_name step))
  end.

(** The list comprehension that builds a [Step] from each item of
    [outline_json] at key [steps]. *)
Definition steps_of (outline_json : PyValue) : Result (list model.Step) :=
  rbind (py_getitem outline_json "steps") (fun steps =>
  rbind (py_iter steps) (fun items =>
  comprehension Step_of items)).

(** The patient is looked up with [memory.patient_id] before [memory] is
    tested, as in the source. *)
Definition generate_and_save_therapy_outline (memory_id : string) : Prog string :=
  call (LoggerInfo "Generating therapy outline for memory: %s" (PyStr memory_id)) ;;
  memory <- call (GetMemoryById memory_id) ;;
  pid <- lift (getattr_patient_id memory) ;;
  patient <- call (GetPatientById pid) ;;
  match memory with
  | None => Raise (ValueError ("No memory found with ID: " ++ memory_id))
  | Some memory =>
      let input_data :=
        PyDict [ ("memory_id", PyStr memory_id);
                 ("memory_details", memory_dump memory);
                 ("patient_details", patient_dump patient) ] in
      outline_json <- _generate_therapy_outline input_data ;;
      steps <- lift (steps_of outline_json) ;;
      let therapy_outline :=
        {| model.patient_id := patient_id memory;
           model.memory_id := memory_id;
           model.steps := steps |} in
      call (LoggerInfo "Saving therapy outline for memory: %s" (PyStr memory_id)) ;;
      call (SaveTherapyOutline therapy_outline)
  end.

End TherapyOutlineService.

(* ------------------------------------------------------------------ *)
(** ** [json.loads] *)

(** The decoder of the standard library, after CPython's scanner: a
    recursive descent over the text that stops at the first character it
    cannot accept.  Text is UTF-8, offsets count bytes while scanning and
    are turned into character indices when an error is built.  Integers
    become [PyInt]; a number with a fraction or an exponent becomes a
    [PyFloat] that keeps its numeral.  Interpreter limits (recursion depth,
    digits of an integer) are not part of the model. *)
Module json.

Inductive Scan (A : Type) : Type :=
| Scanned (a : A) (rest : string) (off : nat)
| Stop (m : string) (off : nat)
| Deep.

Arguments Scanned {A} a rest off.
Arguments Stop {A} m off.
Arguments Deep {A}.

Definition is_whitespace (a : ascii) : bool :=
  Ascii.eqb a " " || Ascii.eqb a TAB || Ascii.eqb a LF || Ascii.eqb a CR.

Fixpoint skip_whitespace (s : string) (off : nat) : string * nat :=
  match s with
  | String a s' => if is_whitespace a then skip_whitespace s' (S off) else (s, off)
  | EmptyString => (s, off)
  end.

Definition is_digit (a : ascii) : bool :=
  let n := nat_of_ascii a in (48 <=? n)%nat && (n <=? 57)%nat.

Definition hex_value (a : ascii) : option N :=
  let n := N_of_ascii a in
  if (48 <=? n)%N && (n <=? 57)%N then Some (n - 48)%N
  else if (97 <=? n)%N && (n <=? 102)%N then Some (n - 87)%N
  else if (65 <=? n)%N && (n <=? 70)%N then Some (n - 55)%N
  else None.

Definition hex4 (a b c d : ascii) : option N :=
  match hex_value a, hex_value b, hex_value c, hex_value d with
  | Some x, Some y, Some z, Some w => Some (((x * 16 + y) * 16 + z) * 16 + w)%N
  | _, _, _, _ => None
  end.

Definition byte (n : N) : ascii := ascii_of_N n.

(** The UTF-8 bytes of a code point (a lone surrogate is written with
    three bytes like any other character of its range). *)
Definition utf8 (c : N) : string :=
  if (c <? 128)%N then chr (byte c)
  else if (c <? 2048)%N then
    String (byte (192 + c / 64)) (chr (byte (128 + c mod 64)))
  else if (c <? 65536)%N then
    String (byte (224 + c / 4096))
      (String (byte (128 + (c / 64) mod 64)) (chr (byte (128 + c mod 64))))
  else
    String (byte (240 + c / 262144))
      (String (byte (128 + (c / 4096) mod 64))
         (String (byte (128 + (c / 64) mod 64)) (chr (byte (128 + c mod 64))))).

Definition is_high_surrogate (c : N) : bool := (55296 <=? c)%N && (c <=? 56319)%N.
Definition is_low_surrogate (c : N) : bool := (56320 <=? c)%N && (c <=? 57343)%N.

Definition simple_escape (a : ascii) : option ascii :=
  if Ascii.eqb a dquote then Some dquote
  else if Ascii.eqb a backslash then Some backslash
  else if Ascii.eqb a "/" then Some "/"%char
  else if Ascii.eqb a "b" then Some "008"%char
  else if Ascii.eqb a "f" then Some "012"%char
  else if Ascii.eqb a "n" then Some LF
  else if Ascii.eqb a "r" then Some CR
  else if Ascii.eqb a "t" then Some TAB
  else None.

Definition prepend (p : string) (r : Scan string) : Scan string :=
  match r with
  | Scanned str rest o => Scanned (p ++ str) rest o
  | other => other
  end.

(** The body of a string literal, from the character after the opening
    quote at offset [begin]. *)
Fixpoint scanstring (s : string) (off begin : nat) : Scan string :=
  match s with
  | EmptyString => Stop "Unterminated string starting at" begin
  | String a s1 =>
      if Ascii.eqb a dquote then Scanned EmptyString s1 (S off)
      else if Ascii.eqb a backslash then
        match s1 with
        | EmptyString => Stop "Unterminated string starting at" begin
        | String e s2 =>
            if Ascii.eqb e "u" then
              match s2 with
              | String h1 (String h2 (String h3 (String h4 ((String n1 s7) as s6)))) =>
                  match hex4 h1 h2 h3 h4 with
                  | None => Stop "Invalid \uXXXX escape" (S off)
                  | Some c =>
                      let alone := prepend (utf8 c) (scanstring s6 (6 + off) begin) in
                      if is_high_surrogate c then
                        match s6 with
                        | String b1 (String b2 (String g1 (String g2 (String g3 (String g4
                            ((String _ _) as s12)))))) =>
                            if Ascii.eqb b1 backslash && Ascii.eqb b2 "u" then
                              match hex4 g1 g2 g3 g4 with
                              | None => Stop "Invalid \uXXXX escape" (7 + off)
                              | Some c2 =>
                                  if is_low_surrogate c2 then
                                    prepend (utf8 (65536 + (c - 55296) * 1024 + (c2 - 56320))%N)
                                            (scanstring s12 (12 + off) begin)
                                  else alone
                              end
                            else alone
                        | _ => alone
                        end
                      else alone
                  end
              | _ => Stop "Invalid \uXXXX escape" (S off)
              end
            else
              match simple_escape e with
              | Some c => prepend (chr c) (scanstring s2 (2 + off) begin)
              | None => Stop "Invalid \escape" off
              end
        end
      else if (nat_of_ascii a <=? 31)%nat then Stop "Invalid control character at" off
      else prepend (chr a) (scanstring s1 (S off) begin)
  end.

Fixpoint span_digits (s : string) : string * string :=
  match s with
  | String a s' =>
      if is_digit a then let '(d, rest) := span_digits s' in (String a d, rest)
      else (EmptyString, s)
  | EmptyString => (EmptyString, EmptyString)
  end.

Fixpoint digits_value (s : string) (acc : Z) : Z :=
  match s with
  | String a s' => digits_value s' (10 * acc + Z.of_nat (nat_of_ascii a - 48))%Z
  | EmptyString => acc
  end.

(** The integer part of a number: [0], or a non-zero digit and more
    digits. *)
Definition integer_part (s : string) : option (string * string) :=
  match s with
  | String a s' =>
      if Ascii.eqb a "0" then Some ("0", s')
      else if is_digit a then let '(d, rest) := span_digits s' in Some (String a d, rest)
      else None
  | EmptyString => None
  end.

Definition fraction_part (s : string) : string * string :=
  match s with
  | String a ((String b _) as s') =>
      if Ascii.eqb a "." && is_digit b
      then let '(d, rest) := span_digits s' in (String a d, rest)
      else (EmptyString, s)
  | _ => (EmptyString, s)
  end.

Definition exponent_part (s : string) : string * string :=
  match s with
  | String a s' =>
      if Ascii.eqb a "e" || Ascii.eqb a "E" then
        let '(sign, s2) :=
          match s' with
          | String b ((String _ _) as s'') =>
              if Ascii.eqb b "-" || Ascii.eqb b "+" then (chr b, s'') else (EmptyString, s')
          | _ => (EmptyString, s')
          end in
        match span_digits s2 with
        | (EmptyString, _) => (EmptyString, s)
        | (d, rest) => (String a (sign ++ d), rest)
        end
      else (EmptyString, s)
  | EmptyString => (EmptyString, s)
  end.

(** A number at the head of [s]: the value, what follows, and the bytes
    read. *)
Definition match_number (s : string) : option (PyValue * string * nat) :=
  let '(sign, s0) :=
    match s with
    | String a s' => if Ascii.eqb a "-" then ("-", s') else (EmptyString, s)
    | EmptyString => (EmptyString, s)
    end in
  match integer_part s0 with
  | None => None
  | Some (int, s1) =>
      let '(frac, s2) := fraction_part s1 in
      let '(exp, s3) := exponent_part s2 in
      let numeral := sign ++ int ++ frac ++ exp in
      let value :=
        match frac, exp with
        | EmptyString, EmptyString =>
            PyInt (if String.eqb sign "-" then - digits_value int 0 else digits_value int 0)%Z
        | _, _ => PyFloat numeral
        end in
      Some (value, s3, String.length numeral)
  end.

Fixpoint drop (n : nat) (s : string) : string :=
  match n, s with
  | S n', String _ s' => drop n' s'
  | _, _ => s
  end.

(** The literals, then numbers; [s] starts at offset [off]. *)
Definition scan_constant_or_number (s : string) (off : nat) : Scan PyValue :=
  if is_prefix "null" s then Scanned PyNone (drop 4 s) (4 + off)
  else if is_prefix "true" s then Scanned (PyBool true) (drop 4 s) (4 + off)
  else if is_prefix "false" s then Scanned (PyBool false) (drop 5 s) (5 + off)
  else if is_prefix "NaN" s then Scanned (PyFloat "nan") (drop 3 s) (3 + off)
  else if is_prefix "Infinity" s then Scanned (PyFloat "inf") (drop 8 s) (8 + off)
  else if is_prefix "-Infinity" s then Scanned (PyFloat "-inf") (drop 9 s) (9 + off)
  else
    match match_number s with
    | Some (v, rest, n) => Scanned v rest (n + off)
    | None => Stop "Expecting value" off
    end.

(** [d[key] = x] on an insertion-ordered dict. *)
Fixpoint dict_set (key : string) (x : PyValue) (items : list (string * PyValue))
  : list (string * PyValue) :=
  match items with
  | [] => [(key, x)]
  | (k, y) :: rest =>
      if String.eqb k key then (k, x) :: rest else (k, y) :: dict_set key x rest
  end.

Fixpoint scan_once (fuel : nat) (s : string) (off : nat) {struct fuel} : Scan PyValue :=
  match fuel with
  | O => Deep
  | S fuel' =>
      match s with
      | EmptyString => Stop "Expecting value" off
      | String a s1 =>
          if Ascii.eqb a dquote then
            match scanstring s1 (S off) off with
            | Scanned str rest o => Scanned (PyStr str) rest o
            | Stop m o => Stop m o
            | Deep => Deep
            end
          else if Ascii.eqb a "{" then
            let '(s2, o2) := skip_whitespace s1 (S off) in
            match s2 with
            | String b s3 =>
                if Ascii.eqb b "}" then Scanned (PyDict []) s3 (S o2)
                else parse_members fuel' s2 o2 []
            | EmptyString => parse_members fuel' s2 o2 []
            end
          else if Ascii.eqb a "[" then
            let '(s2, o2) := skip_whitespace s1 (S off) in
            match s2 with
            | String b s3 =>
                if Ascii.eqb b "]" then Scanned (PyList []) s3 (S o2)
                else parse_items fuel' s2 o2 []
            | EmptyString => parse_items fuel' s2 o2 []
            end
          else scan_constant_or_number s off
      end
  end

with parse_items (fuel : nat) (s : string) (off : nat) (acc : list PyValue)
  {struct fuel} : Scan PyValue :=
  match fuel with
  | O => Deep
  | S fuel' =>
      match scan_once fuel' s off with
      | Scanned v s1 o1 =>
          let '(s2, o2) := skip_whitespace s1 o1 in
          match s2 with
          | String b s3 =>
              if Ascii.eqb b "]" then Scanned (PyList (rev (v :: acc))) s3 (S o2)
              else if Ascii.eqb b "," then
                let '(s4, o4) := skip_whitespace s3 (S o2) in
                parse_items fuel' s4 o4 (v :: acc)
              else Stop "Expecting ',' delimiter" o2
          | EmptyString => Stop "Expecting ',' delimiter" o2
          end
      | other => other
      end
  end

with parse_members (fuel : nat) (s : string) (off : nat) (acc : list (string * PyValue))
  {struct fuel} : Scan PyValue :=
  match fuel with
  | O => Deep
  | S fuel' =>
      match s with
      | String q s1 =>
          if Ascii.eqb q dquote then
            match scanstring s1 (S off) off with
            | Scanned key s2 o2 =>
                let '(s3, o3) := skip_whitespace s2 o2 in
                match s3 with
                | String c s4 =>
                    if Ascii.eqb c ":" then
                      let '(s5, o5) := skip_whitespace s4 (S o3) in
                      match scan_once fuel' s5 o5 with
                      | Scanned v s6 o6 =>
                          let acc' := dict_set key v acc in
                          let '(s7, o7) := skip_whitespace s6 o6 in
                          match s7 with
                          | String d s8 =>
                              if Ascii.eqb d "}" then Scanned (PyDict acc') s8 (S o7)
                              else if Ascii.eqb d "," then
                                let '(s9, o9) := skip_whitespace s8 (S o7) in
                                parse_members fuel' s9 o9 acc'
                              else Stop "Expecting ',' delimiter" o7
                          | EmptyString => Stop "Expecting ',' delimiter" o7
                          end
                      | other => other
                      end
                    else Stop "Expecting ':' delimiter" o3
                | EmptyString => Stop "Expecting ':' delimiter" o3
                end
            | Stop m o => Stop m o
            | Deep => Deep
            end
          else Stop "Expecting property name enclosed in double quotes" off
      | EmptyString => Stop "Expecting property name enclosed in double quotes" off
      end
  end.

(** The index of the character that starts at byte [off] of [s]. *)
Fixpoint char_index (s : string) (off : nat) : nat :=
  match off, s with
  | S off', String a s' =>
      if is_continuation a then char_index s' off' else S (char_index s' off')
  | _, _ => 0
  end.

Definition decode_error (m s : string) (off : nat) : JSONDecodeError :=
  {| msg := m; doc := s; pos := char_index s off |}.

(** The byte order mark, which [loads] refuses. *)
Definition BOM : string := String (byte 239) (String (byte 187) (chr (byte 191))).

(** [json.loads] on a [str].  The scanner gets twice the length of the text
    and two more as fuel, which is enough ([json_facts.loads_has_fuel]
    below): the case [Deep] of the last match is never taken. *)
Definition loads (s : string) : JSONDecodeError + PyValue :=
  if is_prefix BOM s
  then inl (decode_error "Unexpected UTF-8 BOM (decode using utf-8-sig)" s 0)
  else
    let '(s1, o1) := skip_whitespace s 0 in
    match scan_once (2 * String.length s + 2) s1 o1 with
    | Scanned v s2 o2 =>
        let '(s3, o3) := skip_whitespace s2 o2 in
        match s3 with
        | EmptyString => inr v
        | String _ _ => inl (decode_error "Extra data" s o3)
        end
    | Stop m o => inl (decode_error m s o)
    | Deep => inl (decode_error "out of fuel" s (String.length s))
    end.

End json.

(* ------------------------------------------------------------------ *)
(** ** Collaborators kept in memory *)

(** A world to run the service in: lookup tables for memories and
    patients, a chat client that answers every request with one scripted
    completion (or raises), a repository that keeps what is saved, and a
    logger that keeps what is logged. *)
Module InMemory.

Record World : Type := {
  memories : list (string * Memory);
  patients : list (string * Patient);
  scripted : Result openai.ChatCompletion;
  outlines : list model.TherapyOutline;
  logged : list (string * PyValue)
}.

Fixpoint lookup {A} (key : string) (table : list (string * A)) : option A :=
  match table with
  | [] => None
  | (k, a) :: rest => if String.eqb k key then Some a else lookup key rest
  end.

Definition NotFoundError (what : string) : Exception :=
  OtherError "NotFoundError" what.

Definition handler : Handler World :=
  fun X ev w =>
    match ev in Event X return Result X * World with
    | LoggerInfo fmt arg =>
        (inr tt,
         {| memories := memories w; patients := patients w; scripted := scripted w;
            outlines := outlines w; logged := (logged w ++ [(fmt, arg)])%list |})
    | GetMemoryById memory_id => (inr (lookup memory_id (memories w)), w)
    | GetPatientById patient_id =>
        match lookup patient_id (patients w) with
        | Some p => (inr p, w)
        | None => (inl (NotFoundError "Patient not found"), w)
        end
    | ChatCompletionsCreate _ => (scripted w, w)
    | SaveTherapyOutline o =>
        (inr ("outline-" ++ nat_to_string (List.length (outlines w))),
         {| memories := memories w; patients := patients w; scripted := scripted w;
            outlines := o :: outlines w; logged := logged w |})
    | RepositoryGetTherapyOutlineByMemoryId memory_id =>
        match find (fun o => String.eqb (model.memory_id o) memory_id) (outlines w) with
        | Some o => (inr o, w)
        | None => (inl (NotFoundError "Therapy outline not found"), w)
        end
    end.

(** One memory of one patient, and a client that answers [text]. *)
Definition wedding : Memory :=
  {| patient_id := "p1";
     memory_dump := PyDict [ ("_id", PyStr "m1"); ("patient_id", PyStr "p1");
                             ("title", PyStr "Wedding day") ] |}.

Definition ann : Patient :=
  {| patient_dump := PyDict [ ("_id", PyStr "p1"); ("name", PyStr "Ann") ] |}.

Definition answering (content : option string) : World :=
  {| memories := [ ("m1", wedding) ];
     patients := [ ("p1", ann) ];
     scripted := inr {| openai.choices := [ {| openai.message_content := content |} ] |};
     outlines := [];
     logged := [] |}.

End InMemory.

(** The response of the worked example of the specification. *)
Definition example_response : string :=
  "{" ++ qt "patient_id" ++ ":" ++ qt "p1" ++ "," ++ qt "memory_id" ++ ":" ++ qt "m1" ++ ","
      ++ qt "steps" ++ ":[{" ++ qt "step" ++ ":1," ++ qt "description" ++ ":" ++ qt "d" ++ ","
      ++ qt "guide" ++ ":[" ++ qt "g1" ++ "]," ++ qt "type" ++ ":" ++ qt "INTRODUCTION" ++ ","
      ++ qt "media_urls" ++ ":[]," ++ qt "script" ++ ":{" ++ qt "voice" ++ ":" ++ qt "alloy"
      ++ "," ++ qt "text" ++ ":" ++ qt "t" ++ "}}]}".

(* ------------------------------------------------------------------ *)
(** ** Worked inputs *)

(** The code-fence marker of markdown. *)
Definition fence : string := String backtick (String backtick (chr backtick)).

(** The step and the outline of the worked example. *)
Definition example_step : model.Step :=
  {| model.step := 1;
     model.description := "d";
     model.guide := [ "g1" ];
     model.type := model.INTRODUCTION;
     model.media_urls := [];
     model.script := {| model.voice := model.alloy; model.text := "t" |} |}.

(** What the example response decodes to. *)
Definition example_steps_value : PyValue :=
  PyList
    [ PyDict
        [ ("step", PyInt 1); ("description", PyStr "d");
          ("guide", PyList [ PyStr "g1" ]); ("type", PyStr "INTRODUCTION");
          ("media_urls", PyList []);
          ("script", PyDict [ ("voice", PyStr "alloy"); ("text", PyStr "t") ]) ] ].

Definition example_document : PyValue :=
  PyDict [ ("patient_id", PyStr "p1"); ("memory_id", PyStr "m1");
           ("steps", example_steps_value) ].

Definition example_document_other_ids : PyValue :=
  PyDict [ ("patient_id", PyStr "someone else"); ("memory_id", PyStr "m999");
           ("steps", example_steps_value) ].

(** The same steps under other identifiers. *)
Definition example_response_other_ids : string :=
  "{" ++ qt "patient_id" ++ ":" ++ qt "someone else" ++ "," ++ qt "memory_id" ++ ":" ++ qt "m999"
      ++ "," ++ qt "steps" ++ ":[{" ++ qt "step" ++ ":1," ++ qt "description" ++ ":" ++ qt "d"
      ++ "," ++ qt "guide" ++ ":[" ++ qt "g1" ++ "]," ++ qt "type" ++ ":" ++ qt "INTRODUCTION"
      ++ "," ++ qt "media_urls" ++ ":[]," ++ qt "script" ++ ":{" ++ qt "voice" ++ ":"
      ++ qt "alloy" ++ "," ++ qt "text" ++ ":" ++ qt "t" ++ "}}]}".

(** A document with the identifiers and no [steps]. *)
Definition response_without_steps : string :=
  "{" ++ qt "patient_id" ++ ":" ++ qt "p1" ++ "," ++ qt "memory_id" ++ ":" ++ qt "m1" ++ "}".

(** A document whose [steps] is a string, the empty one, instead of an
    array. *)
Definition response_with_text_steps : string :=
  "{" ++ qt "patient_id" ++ ":" ++ qt "p1" ++ "," ++ qt "memory_id" ++ ":" ++ qt "m1" ++ ","
      ++ qt "steps" ++ ":" ++ qt EmptyString ++ "}".

(** The outline document in the words of the specification: an object
    with the keys [patient_id], [memory_id] and [steps], where [steps] is
    an array and each step has an integer [step], a [description], an
    array of strings [guide], an enumerated [type], an array of strings
    [media_urls] and a [script] with an enumerated [voice] and a [text]. *)
Definition spec_step_shape (v : PyValue) : bool :=
  match v with
  | PyDict kwargs =>
      match model.Step_init kwargs with
      | inr _ => true
      | inl _ => false
      end
  | _ => false
  end.

Definition spec_outline_shape (v : PyValue) : bool :=
  match v with
  | PyDict items =>
      match dict_get "patient_id" items, dict_get "memory_id" items, dict_get "steps" items with
      | Some (PyStr _), Some (PyStr _), Some (PyList steps) => forallb spec_step_shape steps
      | _, _, _ => false
      end
  | _ => false
  end.

(** A payload whose memory has a title made of a code fence and whose
    dumps do not repeat the memory id. *)
Definition fenced_payload : PyValue :=
  PyDict [ ("memory_id", PyStr "6750373dae22fe6413d7e324");
           ("memory_details", PyDict [ ("title", PyStr fence) ]);
           ("patient_details", PyDict [ ("name", PyStr "Ann") ]) ].

(* ------------------------------------------------------------------ *)
(** ** Further observations *)

(** The calls a run attempted, whatever they answered. *)
Definition memory_request (en : Entry) : option string :=
  match en with
  | Called (GetMemoryById memory_id) _ => Some memory_id
  | _ => None
  end.

Definition patient_request (en : Entry) : option string :=
  match en with
  | Called (GetPatientById patient_id) _ => Some patient_id
  | _ => None
  end.

Definition logged_call (en : Entry) : option (string * PyValue) :=
  match en with
  | Called (LoggerInfo fmt arg) _ => Some (fmt, arg)
  | _ => None
  end.

Definition repository_lookup (en : Entry) : option string :=
  match en with
  | Called (RepositoryGetTherapyOutlineByMemoryId memory_id) _ => Some memory_id
  | _ => None
  end.

(** What a successful patient lookup answered. *)
Definition patient_lookup (en : Entry) : option Patient :=
  match en with
  | Called (GetPatientById _) (inr patient) => Some patient
  | _ => None
  end.

Definition memory_requests (tr : Trace) : list string := collect memory_request tr.
Definition patient_requests (tr : Trace) : list string := collect patient_request tr.
Definition logged_calls (tr : Trace) : list (string * PyValue) := collect logged_call tr.
Definition repository_lookups (tr : Trace) : list string := collect repository_lookup tr.
Definition patient_lookups (tr : Trace) : list Patient := collect patient_lookup tr.

(** The payload the pipeline builds for a memory and a patient. *)
Definition payload_of (memory_id : string) (memory : Memory) (patient : Patient) : PyValue :=
  PyDict [ ("memory_id", PyStr memory_id);
           ("memory_details", memory_dump memory);
           ("patient_details", patient_dump patient) ].

(** The request the pipeline sends for a prompt. *)
Definition request_of (prompt : string) : openai.Request :=
  {| openai.model := "gpt-4o";
     openai.messages := [ system_message; user_message prompt ];
     openai.temperature := 0.2 |}.

(* ------------------------------------------------------------------ *)
(** ** Substrings *)

Lemma append_assoc (x y z : string) : (x ++ y) ++ z = x ++ (y ++ z).
Proof.
  induction x as [| a x IH]; simpl; [reflexivity | now rewrite IH].
Qed.

Lemma append_nil_r (x : string) : x ++ EmptyString = x.
Proof.
  induction x as [| a x IH]; simpl; [reflexivity | now rewrite IH].
Qed.

Lemma is_prefix_iff (p s : string) :
  is_prefix p s = true <-> exists post, s = p ++ post.
Proof.
  revert s; induction p as [| a p IH]; intros s; simpl.
  - split; [intros _; now exists s | reflexivity].
  - destruct s as [| b s].
    + split; [discriminate | intros [post H]; discriminate].
    + rewrite andb_true_iff, Ascii.eqb_eq, IH. split.
      * intros [-> [post ->]]. now exists post.
      * intros [post H]. injection H as -> ->. split; [reflexivity | now exists post].
Qed.

Lemma contains_unfold (needle s : string) :
  contains needle s =
  is_prefix needle s || match s with EmptyString => false | String _ s' => contains needle s' end.
Proof.
  destruct s; reflexivity.
Qed.

Lemma contains_iff (needle s : string) :
  contains needle s = true <-> Substring needle s.
Proof.
  unfold Substring. split.
  - induction s as [| a s IH]; rewrite contains_unfold, orb_true_iff.
    + intros [H | H]; [| discriminate].
      apply is_prefix_iff in H as [post ->]. now exists EmptyString, post.
    + intros [H | H].
      * apply is_prefix_iff in H as [post ->]. now exists EmptyString, post.
      * destruct (IH H) as (pre & post & ->). now exists (String a pre), post.
  - intros (pre & post & ->).
    induction pre as [| a pre IH]; rewrite contains_unfold, orb_true_iff.
    + left. apply is_prefix_iff. now exists post.
    + right. exact IH.
Qed.

Lemma Substring_refl (s : string) : Substring s s.
Proof.
  exists EmptyString, EmptyString. simpl. now rewrite append_nil_r.
Qed.

Lemma Substring_trans (x y z : string) :
  Substring x y -> Substring y z -> Substring x z.
Proof.
  intros (p1 & q1 & ->) (p2 & q2 & ->).
  exists (p2 ++ p1), (q1 ++ q2). now rewrite !append_assoc.
Qed.

Lemma Substring_append_l (x y z : string) : Substring x y -> Substring x (y ++ z).
Proof.
  intros (p & q & ->). exists p, (q ++ z). now rewrite !append_assoc.
Qed.

Lemma Substring_append_r (x y z : string) : Substring x z -> Substring x (y ++ z).
Proof.
  intros (p & q & ->). exists (y ++ p), q. now rewrite !append_assoc.
Qed.

(** Every line of a joined text is a substring of it. *)
Lemma Substring_join (sep x : string) (l : list string) :
  In x l -> Substring x (join sep l).
Proof.
  induction l as [| y l IH]; [intros [] |].
  intros [-> | Hin].
  - destruct l; [apply Substring_refl | apply Substring_append_l, Substring_refl].
  - destruct l as [| z l]; [destruct Hin |].
    change (join sep (y :: z :: l)) with (y ++ sep ++ join sep (z :: l)).
    now apply Substring_append_r, Substring_append_r, IH.
Qed.


(** A fence cannot run across a character that is not a backtick. *)
Lemma fence_across (c : ascii) (x y : string) :
  c <> backtick ->
  contains fence (x ++ String c y) = contains fence x || contains fence y.
Proof.
  intros Hc.
  assert (Hb : Ascii.eqb backtick c = false).
  { apply Ascii.eqb_neq. congruence. }
  induction x as [| a x IH].
  - cbn [append]. rewrite (contains_unfold fence (String c y)).
    unfold fence at 1, chr. cbn [is_prefix]. rewrite Hb. reflexivity.
  - cbn [append].
    rewrite (contains_unfold fence (String a _)), (contains_unfold fence (String a x)), IH.
    rewrite orb_assoc. f_equal. f_equal.
    unfold fence, chr. cbn [is_prefix append].
    destruct (Ascii.eqb backtick a); [| reflexivity]. cbn [andb].
    destruct x as [| b x]; cbn [is_prefix append]; [now rewrite Hb |].
    destruct (Ascii.eqb backtick b); [| reflexivity]. cbn [andb].
    destruct x as [| d x]; cbn [is_prefix append]; [now rewrite Hb |].
    reflexivity.
Qed.

Lemma fence_in_join (l : list string) :
  contains fence (join (chr LF) l) = existsb (contains fence) l.
Proof.
  induction l as [| x l IH]; [reflexivity |].
  destruct l as [| y l].
  - simpl. now rewrite orb_false_r.
  - change (join (chr LF) (x :: y :: l)) with (x ++ String LF (join (chr LF) (y :: l))).
    rewrite fence_across by discriminate.
    now rewrite IH.
Qed.

Lemma fence_after_indent (x : string) :
  contains fence ("        " ++ x) = contains fence x.
Proof.
  change ("        " ++ x) with ("       " ++ String " " x).
  now rewrite fence_across by discriminate.
Qed.

(* ------------------------------------------------------------------ *)
(** ** The prompt *)

(** The payload the pipeline builds always has the two keys the template
    reads. *)
Lemma payload_has_prompt (memory_id memory_details patient_details : PyValue) :
  exists prompt,
    _construct_therapy_outline_prompt
      (PyDict [ ("memory_id", memory_id); ("memory_details", memory_details);
                ("patient_details", patient_details) ]) = inr prompt.
Proof.
  eexists. reflexivity.
Qed.

(** C4, as amended.  Whenever a prompt is built, the payload has the keys
    [memory_details] and [patient_details], the [str] renderings of both
    values are substrings of the prompt, and the prompt has a code-fence
    marker exactly when one of the two renderings has one: the template
    adds none. *)
Theorem prompt_contains_the_payloads_and_only_their_fences :
  forall (input_data : PyValue) (prompt : string),
    _construct_therapy_outline_prompt input_data = inr prompt ->
    exists memory_details patient_details : PyValue,
      py_getitem input_data "memory_details" = inr memory_details /\
      py_getitem input_data "patient_details" = inr patient_details /\
      Substring (py_str memory_details) prompt /\
      Substring (py_str patient_details) prompt /\
      (Substring fence prompt <->
       Substring fence (py_str memory_details) \/ Substring fence (py_str patient_details)).
Proof.
  intros input_data prompt H.
  unfold _construct_therapy_outline_prompt in H.
  destruct (py_getitem input_data "memory_details") as [e | md]; [discriminate |].
  destruct (py_getitem input_data "patient_details") as [e | pd]; [discriminate |].
  unfold rbind, ok in H.
  match type of H with inr ?t = _ => set (text := t) in H end.
  injection H as <-.
  assert (Hfence : contains fence text
                   = contains fence (py_str md) || contains fence (py_str pd)).
  { unfold text. rewrite fence_in_join. cbn [existsb]. rewrite !fence_after_indent.
    generalize (contains fence (py_str md)), (contains fence (py_str pd)).
    intros b1 b2. vm_compute. destruct b1, b2; reflexivity. }
  exists md, pd. repeat split; try reflexivity.
  - apply Substring_trans with ("        " ++ py_str md).
    + apply Substring_append_r, Substring_refl.
    + unfold text. apply Substring_join. apply (nth_error_In _ 22). reflexivity.
  - apply Substring_trans with ("        " ++ py_str pd).
    + apply Substring_append_r, Substring_refl.
    + unfold text. apply Substring_join. apply (nth_error_In _ 25). reflexivity.
  - rewrite <- !contains_iff, <- orb_true_iff. now rewrite Hfence.
  - rewrite <- !contains_iff, <- orb_true_iff. now rewrite Hfence.
Qed.

(* ------------------------------------------------------------------ *)
(** ** The decoder has fuel enough *)

Module json_facts.

Import json.

Local Open Scope nat_scope.

Lemma skip_whitespace_length (s : string) (off : nat) :
  String.length (fst (skip_whitespace s off)) <= String.length s.
Proof.
  revert off; induction s as [| a s IH]; intros off; simpl; [lia |].
  destruct (is_whitespace a); simpl; [| lia].
  specialize (IH (S off)). lia.
Qed.

Lemma prepend_Scanned (p : string) (r : Scan string) str rest o :
  prepend p r = Scanned str rest o -> exists str', r = Scanned str' rest o.
Proof.
  destruct r; simpl; try discriminate.
  intros H. injection H as _ <- <-. eauto.
Qed.

Lemma prepend_Deep (p : string) (r : Scan string) :
  prepend p r = Deep -> r = Deep.
Proof.
  destruct r; simpl; try discriminate. reflexivity.
Qed.

Ltac break_in H :=
  match type of H with
  | context [match ?x with _ => _ end] =>
      lazymatch x with
      | context [match _ with _ => _ end] => fail
      | _ => destruct x eqn:?
      end
  | context [if ?x then _ else _] =>
      lazymatch x with
      | context [if _ then _ else _] => fail
      | _ => destruct x eqn:?
      end
  end.

(** A string literal ends before the text does. *)
Lemma scanstring_rest (n : nat) :
  forall s off begin str rest o,
    String.length s <= n ->
    scanstring s off begin = Scanned str rest o ->
    String.length rest < String.length s.
Proof.
  induction n as [| n IH]; intros s off begin str rest o Hlen H.
  - destruct s; [discriminate H | simpl in Hlen; lia].
  - destruct s as [| a s1]; [discriminate H |].
    cbn [scanstring] in H.
    repeat break_in H; try discriminate H.
    all: try (injection H as _ <- _; cbn [String.length]; lia).
    all: apply prepend_Scanned in H as [str' H].
    all: apply IH in H; cbn [String.length] in *; lia.
Qed.

Lemma scanstring_not_Deep (n : nat) :
  forall s off begin,
    String.length s <= n -> scanstring s off begin <> Deep.
Proof.
  induction n as [| n IH]; intros s off begin Hlen H.
  - destruct s; [discriminate H | simpl in Hlen; lia].
  - destruct s as [| a s1]; [discriminate H |].
    cbn [scanstring] in H.
    repeat break_in H; try discriminate H.
    all: apply prepend_Deep in H.
    all: apply IH in H; [exact H | cbn [String.length] in *; lia].
Qed.

Lemma span_digits_length (s : string) :
  String.length (snd (span_digits s)) <= String.length s.
Proof.
  induction s as [| a s IH]; simpl; [lia |].
  destruct (is_digit a); simpl; [| lia].
  destruct (span_digits s) as [d rest]; simpl in *. lia.
Qed.

Lemma integer_part_rest (s d rest : string) :
  integer_part s = Some (d, rest) -> String.length rest < String.length s.
Proof.
  destruct s as [| a s]; simpl; [discriminate |].
  destruct (Ascii.eqb a "0").
  - intros H. injection H as _ <-. lia.
  - destruct (is_digit a); [| discriminate].
    pose proof (span_digits_length s) as Hs.
    destruct (span_digits s) as [d' rest']; simpl in Hs.
    intros H. injection H as _ <-. lia.
Qed.

Lemma fraction_part_length (s : string) :
  String.length (snd (fraction_part s)) <= String.length s.
Proof.
  destruct s as [| a [| b s]]; try (simpl; lia).
  unfold fraction_part. remember (String b s) as t eqn:Ht.
  destruct (Ascii.eqb a "." && is_digit b); cbn [snd String.length]; [| lia].
  pose proof (span_digits_length t) as Hs.
  destruct (span_digits t) as [d rest]; cbn [snd String.length] in *. lia.
Qed.

Lemma exponent_part_length (s : string) :
  String.length (snd (exponent_part s)) <= String.length s.
Proof.
  destruct s as [| a s]; simpl; [lia |].
  destruct (Ascii.eqb a "e" || Ascii.eqb a "E"); simpl; [| lia].
  match goal with
  | |- context [span_digits (snd ?p)] => idtac
  | |- context [let '(_, _) := ?p in _] =>
      assert (Hp : String.length (snd p) <= String.length s)
  end.
  { destruct s as [| b [| c s]]; simpl; try lia.
    destruct (Ascii.eqb b "-" || Ascii.eqb b "+"); simpl; lia. }
  match goal with
  | |- context [let '(_, _) := ?p in _] => destruct p as [sign s2]
  end.
  simpl in Hp.
  pose proof (span_digits_length s2) as Hs.
  destruct (span_digits s2) as [[| d0 d] rest]; simpl in *; lia.
Qed.

Lemma match_number_rest (s : string) v rest n :
  match_number s = Some (v, rest, n) -> String.length rest < String.length s.
Proof.
  unfold match_number.
  match goal with
  | |- context [let '(_, _) := ?p in _] =>
      assert (Hp : String.length (snd p) <= String.length s)
  end.
  { destruct s as [| a s]; simpl; [lia |]. destruct (Ascii.eqb a "-"); simpl; lia. }
  match goal with
  | |- context [let '(_, _) := ?p in _] => destruct p as [sign s0]
  end.
  simpl in Hp.
  destruct (integer_part s0) as [[int s1] |] eqn:Hint; [| discriminate].
  apply integer_part_rest in Hint.
  pose proof (fraction_part_length s1) as Hf.
  destruct (fraction_part s1) as [frac s2]; simpl in Hf.
  pose proof (exponent_part_length s2) as He.
  destruct (exponent_part s2) as [exp s3]; simpl in He.
  intros H. injection H as _ <- _. lia.
Qed.

Lemma drop_prefix_length (p s : string) :
  is_prefix p s = true ->
  String.length (drop (String.length p) s) + String.length p = String.length s.
Proof.
  revert s; induction p as [| a p IH]; intros [| b s]; simpl; try discriminate; try lia.
  intros H. apply andb_true_iff in H as [_ H]. specialize (IH s H). lia.
Qed.

Lemma scan_constant_or_number_rest (s : string) (off : nat) v rest o :
  scan_constant_or_number s off = Scanned v rest o ->
  String.length rest < String.length s.
Proof.
  unfold scan_constant_or_number.
  repeat match goal with
         | |- context [if is_prefix ?p s then _ else _] =>
             let Hp := fresh "Hp" in
             destruct (is_prefix p s) eqn:Hp;
             [ apply drop_prefix_length in Hp; simpl in Hp;
               intros H; injection H as _ <- _; lia |]
         end.
  destruct (match_number s) as [[[v' rest'] n] |] eqn:Hn; [| discriminate].
  apply match_number_rest in Hn. intros H. injection H as _ <- _. exact Hn.
Qed.

Lemma scan_constant_or_number_not_Deep (s : string) (off : nat) :
  scan_constant_or_number s off <> Deep.
Proof.
  unfold scan_constant_or_number.
  repeat match goal with
         | |- context [if ?c then _ else _] => destruct c; [discriminate |]
         end.
  destruct (match_number s) as [[[v' rest'] n] |]; discriminate.
Qed.

Lemma skip_whitespace_rest (s : string) (off : nat) s' off' :
  skip_whitespace s off = (s', off') -> String.length s' <= String.length s.
Proof.
  intros H. pose proof (skip_whitespace_length s off) as Hl. now rewrite H in Hl.
Qed.

Arguments scanstring : simpl never.
Arguments scan_constant_or_number : simpl never.
Arguments skip_whitespace : simpl never.

(** Turns what the scanners answered into facts on lengths. *)
Ltac lengths :=
  repeat match goal with
         | H : skip_whitespace _ _ = (_, _) |- _ => apply skip_whitespace_rest in H
         | H : scanstring ?s _ _ = Scanned _ _ _ |- _ =>
             apply (scanstring_rest (String.length s)) in H; [| apply le_n]
         | H : scan_constant_or_number _ _ = Scanned _ _ _ |- _ =>
             apply scan_constant_or_number_rest in H
         end;
  cbn [String.length] in *.

(** Every value read takes at least one character. *)
Lemma scanned_rest (fuel : nat) :
  (forall s off v rest o,
      scan_once fuel s off = Scanned v rest o -> String.length rest < String.length s) /\
  (forall s off acc v rest o,
      parse_items fuel s off acc = Scanned v rest o -> String.length rest < String.length s) /\
  (forall s off acc v rest o,
      parse_members fuel s off acc = Scanned v rest o -> String.length rest < String.length s).
Proof.
  induction fuel as [| fuel (IH1 & IH2 & IH3)];
    [repeat split; intros; discriminate |].
  repeat split.
  - intros s off v rest o H. simpl in H.
    repeat break_in H; try discriminate H.
    all: try (injection H as _ <- _).
    all: try (apply IH2 in H).
    all: try (apply IH3 in H).
    all: lengths; lia.
  - intros s off acc v rest o H. simpl in H.
    repeat break_in H; try discriminate H.
    all: try (injection H as _ <- _).
    all: try (apply IH2 in H).
    all: match goal with
         | H1 : scan_once _ _ _ = Scanned _ _ _ |- _ => apply IH1 in H1
         end.
    all: lengths; lia.
  - intros s off acc v rest o H. simpl in H.
    repeat break_in H; try discriminate H.
    all: try (injection H as _ <- _).
    all: try (apply IH3 in H).
    all: match goal with
         | H1 : scan_once _ _ _ = Scanned _ _ _ |- _ => apply IH1 in H1
         end.
    all: lengths; lia.
Qed.

(** Twice the length of the text, and two more, is fuel enough. *)
Lemma fuel_enough (fuel : nat) :
  (forall s off, 2 * String.length s + 1 <= fuel -> scan_once fuel s off <> Deep) /\
  (forall s off acc, 2 * String.length s + 2 <= fuel -> parse_items fuel s off acc <> Deep) /\
  (forall s off acc, 2 * String.length s + 2 <= fuel -> parse_members fuel s off acc <> Deep).
Proof.
  induction fuel as [| fuel (IH1 & IH2 & IH3)];
    [repeat split; intros; lia |].
  repeat split.
  - intros s off Hfuel H. simpl in H.
    repeat break_in H; try discriminate H.
    all: try (eapply scanstring_not_Deep; [apply le_n | eassumption]).
    all: try (apply scan_constant_or_number_not_Deep in H; exact H).
    all: try (apply IH2 in H; [exact H |]).
    all: try (apply IH3 in H; [exact H |]).
    all: lengths; lia.
  - intros s off acc Hfuel H. simpl in H.
    repeat break_in H; try discriminate H.
    all: try match goal with
             | H1 : scan_once _ _ _ = Deep |- _ =>
                 apply IH1 in H1; [exact H1 | lia]
             end.
    all: apply IH2 in H; [exact H |].
    all: match goal with
         | H1 : scan_once _ _ _ = Scanned _ _ _ |- _ =>
             apply (proj1 (scanned_rest fuel)) in H1
         end.
    all: lengths; lia.
  - intros s off acc Hfuel H. simpl in H.
    repeat break_in H; try discriminate H.
    all: try (eapply scanstring_not_Deep; [apply le_n | eassumption]).
    all: try match goal with
             | H1 : scan_once _ _ _ = Deep |- _ =>
                 apply IH1 in H1; [exact H1 | lengths; lia]
             end.
    all: apply IH3 in H; [exact H |].
    all: match goal with
         | H1 : scan_once _ _ _ = Scanned _ _ _ |- _ =>
             apply (proj1 (scanned_rest fuel)) in H1
         end.
    all: lengths; lia.
Qed.

(** [json.loads] never runs out of fuel: its answer is a value or one of
    the decoder's own errors. *)
Lemma loads_has_fuel (s : string) :
  scan_once (2 * String.length s + 2) (fst (skip_whitespace s 0)) (snd (skip_whitespace s 0))
  <> Deep.
Proof.
  apply (proj1 (fuel_enough _)).
  pose proof (skip_whitespace_length s 0). lia.
Qed.

End json_facts.

(* ------------------------------------------------------------------ *)
(** ** Running programs *)

Section Runs.

Context {S : Type} (h : Handler S).

Lemma run_bind A B (p : Prog A) (f : A -> Prog B) (s : S) :
  run h (bind p f) s =
  match run h p s with
  | (inl e, s1, tr) => (inl e, s1, tr)
  | (inr a, s1, tr) =>
      let '(r, s2, tr2) := run h (f a) s1 in (r, s2, (tr ++ tr2)%list)
  end.
Proof.
  revert s; induction p as [a | e | X ev k IH]; intros s; simpl.
  - destruct (run h (f a) s) as [[r s2] tr2]; reflexivity.
  - reflexivity.
  - destruct (h X ev s) as [[e | x] s1]; [reflexivity |].
    rewrite IH.
    destruct (run h (k x) s1) as [[[e | a] s2] tr]; [reflexivity |].
    destruct (run h (f a) s2) as [[r s3] tr2]; reflexivity.
Qed.

(** A program has no way to go on after a collaborator raised: the
    exception is the outcome of the run. *)
Lemma failure_is_outcome A (p : Prog A) (s : S) (e : Exception) :
  In e (failures (calls h p s)) -> outcome h p s = inl e.
Proof.
  unfold calls, outcome; revert s.
  induction p as [a | e' | X ev k IH]; intros s; simpl.
  - intros [].
  - intros [].
  - destruct (h X ev s) as [[e' | x] s1]; simpl.
    + intros [-> | []]; reflexivity.
    + specialize (IH x s1).
      destruct (run h (k x) s1) as [[r s2] tr]; simpl in *.
      exact IH.
Qed.

(** And the failed call is the last one made: no call before it failed,
    none comes after it. *)
Lemma failure_is_last A (p : Prog A) (s : S) (e : Exception) :
  In e (failures (calls h p s)) ->
  exists before en,
    calls h p s = (before ++ [en])%list /\ failure en = Some e /\ failures before = [].
Proof.
  unfold calls; revert s.
  induction p as [a | e' | X ev k IH]; intros s; simpl.
  - intros [].
  - intros [].
  - destruct (h X ev s) as [[e' | x] s1]; simpl.
    + intros [-> | []]. now exists [], (Called ev (inl e)).
    + specialize (IH x s1).
      destruct (run h (k x) s1) as [[r s2] tr]; simpl in *.
      intros Hin. destruct (IH Hin) as (before & en & -> & Hen & Hbefore).
      now exists (Called ev (inr x) :: before), en.
Qed.

End Runs.

(* ------------------------------------------------------------------ *)
(** ** The generation pipeline, path by path *)

Arguments _construct_therapy_outline_prompt : simpl never.
Arguments JSONDecodeError_str : simpl never.
Arguments steps_of : simpl never.
Arguments String.append : simpl never.

(** Splits a run on what each collaborator answered and on each test the
    method makes, leaving one goal per path through the method. *)
Ltac split_run H :=
  repeat (unfold lift, rbind, ok, err, list_getitem0, getattr_patient_id,
            _parse_json_output in H;
          cbn in H;
          match type of H with
          | context [match ?x with _ => _ end] =>
              lazymatch x with
              | context [match _ with _ => _ end] => fail
              | _ => destruct x eqn:?
              end
          end);
  cbn in H.

Ltac on_run h p s :=
  let r := fresh "r" in
  let s' := fresh "s'" in
  let tr := fresh "tr" in
  let Hrun := fresh "Hrun" in
  unfold calls, outcome, final_state in *;
  destruct (run h p s) as [[r s'] tr] eqn:Hrun;
  unfold generate_and_save_therapy_outline, _generate_therapy_outline,
    get_therapy_outline_by_memory_id in Hrun;
  split_run Hrun;
  injection Hrun as <- <- <-;
  cbn in *.

Ltac only_one :=
  repeat match goal with
         | H : _ \/ False |- _ => destruct H as [H | []]
         | H : False |- _ => destruct H
         | H : Some _ = Some _ |- _ => injection H as H
         end.

(** Brings together two answers to the same question. *)
Ltac agree :=
  repeat match goal with
         | H1 : ?l = _, H2 : ?l = _ |- _ =>
             rewrite H1 in H2;
             first [ discriminate H2 | injection H2; clear H2; intros; subst | clear H2 ]
         end.

Section Pipeline.

Variable json_loads : string -> JSONDecodeError + PyValue.
Variable Step_init : list (string * PyValue) -> Result model.Step.

(** What a run did once the model has answered with a text that decodes:
    the memory was found, and the step list decides between saving the
    outline and raising. *)
Lemma run_after_decoding :
  forall (S : Type) (h : Handler S) (s : S) (memory_id : string)
         (response : openai.ChatCompletion) (choice : openai.Choice)
         (others : list openai.Choice) (text : string) (outline_json : PyValue),
    In response (completions (calls h (generate_and_save_therapy_outline json_loads Step_init memory_id) s)) ->
    openai.choices response = choice :: others ->
    openai.message_content choice = Some text ->
    json_loads text = inr outline_json ->
    exists m : Memory,
      memory_lookups (calls h (generate_and_save_therapy_outline json_loads Step_init memory_id) s) = [Some m] /\
      match steps_of Step_init outline_json with
      | inl e =>
          saved_outlines (calls h (generate_and_save_therapy_outline json_loads Step_init memory_id) s) = [] /\
          (failures (calls h (generate_and_save_therapy_outline json_loads Step_init memory_id) s) = [] ->
           outcome h (generate_and_save_therapy_outline json_loads Step_init memory_id) s = inl e)
      | inr steps =>
          let outline :=
            {| model.patient_id := patient_id m;
               model.memory_id := memory_id;
               model.steps := steps |} in
          (forall o, In o (saved_outlines (calls h (generate_and_save_therapy_outline json_loads Step_init memory_id) s)) -> o = outline) /\
          (failures (calls h (generate_and_save_therapy_outline json_loads Step_init memory_id) s) = [] ->
           saved_outlines (calls h (generate_and_save_therapy_outline json_loads Step_init memory_id) s) = [outline])
      end.
Proof.
  intros S h s memory_id response choice others text outline_json Hin Hch Htext Hjson.
  on_run h (generate_and_save_therapy_outline json_loads Step_init memory_id) s.
  all: only_one; subst; try contradiction; agree.
  all: eexists; (split; [reflexivity |]).
  all: try match goal with
           | H : steps_of _ _ = _ |- _ => rewrite H
           end.
  all: try destruct (steps_of Step_init outline_json).
  all: cbn; split; intros; only_one; subst; try reflexivity; try discriminate.
Qed.


(** C1.  When the text the model answered is not valid JSON, no outline is
    passed to the repository, and, no collaborator having raised, the
    method raises the [ValueError] whose message ends with the text of the
    decoding error. *)
Theorem invalid_json_is_a_ValueError_and_nothing_is_saved :
  forall (S : Type) (h : Handler S) (s : S) (memory_id : string)
         (response : openai.ChatCompletion) (choice : openai.Choice)
         (others : list openai.Choice) (text : string) (e : JSONDecodeError),
    In response
       (completions (calls h (generate_and_save_therapy_outline json_loads Step_init memory_id) s)) ->
    openai.choices response = choice :: others ->
    openai.message_content choice = Some text ->
    json_loads text = inl e ->
    saved_outlines (calls h (generate_and_save_therapy_outline json_loads Step_init memory_id) s)
      = [] /\
    (failures (calls h (generate_and_save_therapy_outline json_loads Step_init memory_id) s) = [] ->
     outcome h (generate_and_save_therapy_outline json_loads Step_init memory_id) s
       = inl (ValueError ("Invalid JSON output from OpenAI: " ++ JSONDecodeError_str e))).
Proof.
  intros S h s memory_id response choice others text e Hin Hch Htext Hjson.
  on_run h (generate_and_save_therapy_outline json_loads Step_init memory_id) s.
  all: only_one; subst; try contradiction; agree.
  all: split; intros; try reflexivity; discriminate.
Qed.

(** C2, what the code does.  When the memory lookup returns nothing, the
    method raises the [AttributeError] of reading [patient_id] on [None]:
    the test that raises the "no memory found" [ValueError] comes after
    that read and is not reached.  No model call is made and nothing is
    saved. *)
Theorem missing_memory_is_an_AttributeError :
  forall (S : Type) (h : Handler S) (s : S) (memory_id : string),
    In None
       (memory_lookups (calls h (generate_and_save_therapy_outline json_loads Step_init memory_id) s)) ->
    outcome h (generate_and_save_therapy_outline json_loads Step_init memory_id) s
      = inl (AttributeError "'NoneType' object has no attribute 'patient_id'") /\
    chat_requests (calls h (generate_and_save_therapy_outline json_loads Step_init memory_id) s)
      = [] /\
    saved_outlines (calls h (generate_and_save_therapy_outline json_loads Step_init memory_id) s)
      = [].
Proof.
  intros S h s memory_id Hin.
  on_run h (generate_and_save_therapy_outline json_loads Step_init memory_id) s.
  all: only_one; try discriminate; try contradiction.
  repeat split.
Qed.

(** C3.  When the memory is found and the text the model answered decodes
    to a document from which the steps are built, every outline passed to
    the repository has the input memory id, the [patient_id] of the memory
    found and those steps; and, no collaborator having raised, exactly
    that outline is passed. *)
Theorem saved_outline_has_the_input_id_and_the_patient_of_the_memory :
  forall (S : Type) (h : Handler S) (s : S) (memory_id : string) (memory : Memory)
         (response : openai.ChatCompletion) (choice : openai.Choice)
         (others : list openai.Choice) (text : string) (outline_json : PyValue)
         (steps : list model.Step),
    In (Some memory)
       (memory_lookups (calls h (generate_and_save_therapy_outline json_loads Step_init memory_id) s)) ->
    In response
       (completions (calls h (generate_and_save_therapy_outline json_loads Step_init memory_id) s)) ->
    openai.choices response = choice :: others ->
    openai.message_content choice = Some text ->
    json_loads text = inr outline_json ->
    steps_of Step_init outline_json = inr steps ->
    (forall o,
        In o (saved_outlines
                (calls h (generate_and_save_therapy_outline json_loads Step_init memory_id) s)) ->
        model.memory_id o = memory_id /\
        model.patient_id o = patient_id memory /\
        model.steps o = steps) /\
    (failures (calls h (generate_and_save_therapy_outline json_loads Step_init memory_id) s) = [] ->
     saved_outlines (calls h (generate_and_save_therapy_outline json_loads Step_init memory_id) s)
       = [ {| model.patient_id := patient_id memory;
              model.memory_id := memory_id;
              model.steps := steps |} ]).
Proof.
  intros S h s memory_id memory response choice others text outline_json steps
         Hmem Hin Hch Htext Hjson Hsteps.
  destruct (@run_after_decoding S h s memory_id response choice others text outline_json
              Hin Hch Htext Hjson)
    as (m & Hlookup & Hcases).
  rewrite Hlookup in Hmem. destruct Hmem as [Hm | []]. injection Hm as ->.
  rewrite Hsteps in Hcases. cbv beta iota zeta in Hcases. destruct Hcases as [Hall Hone].
  split; [| exact Hone].
  intros o Ho. rewrite (Hall o Ho). repeat split.
Qed.

(** C5.  Every request the generation step sends to the model names the
    model, carries exactly one system message with the reminiscence-therapy
    framing and exactly one user message whose text is the prompt built
    from the payload, and asks for temperature 0.2; and, no collaborator
    having raised, what the step returns or raises is what parsing the
    message content of the first choice of the completion gives, whatever
    the other choices hold: the decoded document when the text decodes, the
    [ValueError] that wraps the decoding error when it does not, the
    [TypeError] of decoding [None] when there is no text. *)
Theorem model_request_and_output_taken :
  forall (S : Type) (h : Handler S) (s : S) (input_data : PyValue),
    (forall request,
        In request (chat_requests (calls h (_generate_therapy_outline json_loads input_data) s)) ->
        exists prompt,
          _construct_therapy_outline_prompt input_data = inr prompt /\
          request =
            {| openai.model := "gpt-4o";
               openai.messages :=
                 [ {| openai.role := "system";
                      openai.content :=
                        [ {| openai.type := "text";
                             openai.text :=
                               "You are an AI assistant specializing in reminiscence therapy." |} ] |};
                   {| openai.role := "user";
                      openai.content :=
                        [ {| openai.type := "text"; openai.text := prompt |} ] |} ];
               openai.temperature := 0.2 |}) /\
    (forall (response : openai.ChatCompletion) (choice : openai.Choice)
            (others : list openai.Choice),
        In response (completions (calls h (_generate_therapy_outline json_loads input_data) s)) ->
        openai.choices response = choice :: others ->
        failures (calls h (_generate_therapy_outline json_loads input_data) s) = [] ->
        outcome h (_generate_therapy_outline json_loads input_data) s
          = match openai.message_content choice with
            | Some text =>
                match json_loads text with
                | inr outline_json => inr outline_json
                | inl e =>
                    inl (ValueError
                           ("Invalid JSON output from OpenAI: " ++ JSONDecodeError_str e))
                end
            | None =>
                inl (TypeError "the JSON object must be str, bytes or bytearray, not NoneType")
            end).
Proof.
  intros S h s input_data.
  on_run h (_generate_therapy_outline json_loads input_data) s.
  all: split; intros; only_one; subst; try discriminate.
  all: try (eexists; split; reflexivity).
  all: agree.
  all: repeat match goal with
              | H : openai.message_content _ = _ |- _ => rewrite H
              | H : json_loads _ = _ |- _ => rewrite H
              end.
  all: reflexivity.
Qed.

(** C8.  A run of the method calls the model at most once, and an
    exception raised by any collaborator is, unchanged, what the method
    raises: the failed call is the last call of the run and no earlier
    call failed. *)
Theorem one_model_call_and_failures_propagate :
  forall (S : Type) (h : Handler S) (s : S) (memory_id : string),
    List.length
      (chat_requests (calls h (generate_and_save_therapy_outline json_loads Step_init memory_id) s))
      <= 1 /\
    (forall e,
        In e (failures (calls h (generate_and_save_therapy_outline json_loads Step_init memory_id) s)) ->
        outcome h (generate_and_save_therapy_outline json_loads Step_init memory_id) s = inl e /\
        exists before en,
          calls h (generate_and_save_therapy_outline json_loads Step_init memory_id) s
            = (before ++ [en])%list /\
          failure en = Some e /\
          failures before = []).
Proof.
  intros S h s memory_id. split.
  - on_run h (generate_and_save_therapy_outline json_loads Step_init memory_id) s.
    all: lia.
  - intros e He. split.
    + now apply failure_is_outcome.
    + now apply failure_is_last.
Qed.

Lemma comprehension_error A B (f : A -> Result B) (l : list A) (e : Exception) :
  comprehension f l = inl e -> exists x, In x l /\ f x = inl e.
Proof.
  induction l as [| x l IH]; simpl; [discriminate |].
  destruct (f x) as [e' | y] eqn:Hx; simpl.
  - intros H. injection H as ->. exists x. now split; [left |].
  - destruct (comprehension f l) as [e' | ys]; simpl; [| discriminate].
    intros H. injection H as ->. destruct (IH eq_refl) as (x' & Hin & Hx').
    exists x'. now split; [right |].
Qed.

(** The exceptions the step list can raise: the lookup of [steps], the
    iteration, the unpacking of an item, or the validation of a step. *)
Lemma steps_of_error (outline_json : PyValue) (e : Exception) :
  steps_of Step_init outline_json = inl e ->
  e = KeyError "steps" \/ (exists m, e = TypeError m) \/ (exists kwargs, Step_init kwargs = inl e).
Proof.
  unfold steps_of, rbind.
  destruct (py_getitem outline_json "steps") as [e1 | v] eqn:Hget.
  - intros H. injection H as ->.
    destruct outline_json; cbn in Hget; try (injection Hget as <-; right; left; eauto).
    destruct (dict_get "steps" items); [discriminate |].
    injection Hget as <-. now left.
  - destruct (py_iter v) as [e2 | items] eqn:Hiter.
    + intros H. injection H as ->.
      destruct v; cbn in Hiter; try discriminate; injection Hiter as <-; right; left; eauto.
    + intros H. apply comprehension_error in H as (x & _ & Hx).
      destruct x; cbn in Hx; try (injection Hx as <-; right; left; eauto).
      right; right; eauto.
Qed.

(** C9, as amended.  When the text the model answered decodes, a document
    that is not an object makes the step list raise a [TypeError], an
    object without the key [steps] makes it raise [KeyError] on that key,
    and whatever the step list raises (that [KeyError], a [TypeError], or
    what the validation of a step raised) is, unwrapped, what the method
    raises when no collaborator raised; nothing is then passed to the
    repository. *)
Theorem shape_errors_are_raised_unwrapped_and_nothing_is_saved :
  forall (S : Type) (h : Handler S) (s : S) (memory_id : string)
         (response : openai.ChatCompletion) (choice : openai.Choice)
         (others : list openai.Choice) (text : string) (outline_json : PyValue),
    In response
       (completions (calls h (generate_and_save_therapy_outline json_loads Step_init memory_id) s)) ->
    openai.choices response = choice :: others ->
    openai.message_content choice = Some text ->
    json_loads text = inr outline_json ->
    ((forall items, outline_json <> PyDict items) ->
     exists m, steps_of Step_init outline_json = inl (TypeError m)) /\
    (forall items,
        outline_json = PyDict items -> dict_get "steps" items = None ->
        steps_of Step_init outline_json = inl (KeyError "steps")) /\
    (forall e,
        steps_of Step_init outline_json = inl e ->
        saved_outlines (calls h (generate_and_save_therapy_outline json_loads Step_init memory_id) s)
          = [] /\
        (failures (calls h (generate_and_save_therapy_outline json_loads Step_init memory_id) s) = [] ->
         outcome h (generate_and_save_therapy_outline json_loads Step_init memory_id) s = inl e) /\
        (e = KeyError "steps" \/ (exists m, e = TypeError m) \/
         (exists kwargs, Step_init kwargs = inl e))).
Proof.
  intros S h s memory_id response choice others text outline_json Hin Hch Htext Hjson.
  split; [| split].
  - intros Hnot. destruct outline_json; try (eexists; reflexivity).
    now destruct (Hnot items).
  - intros items -> Hnone. unfold steps_of. cbn. now rewrite Hnone.
  - intros e He.
    destruct (@run_after_decoding S h s memory_id response choice others text outline_json
                Hin Hch Htext Hjson) as (m & _ & Hcases).
    rewrite He in Hcases. destruct Hcases as [Hsaved Hout].
    repeat split; [exact Hsaved | exact Hout | exact (steps_of_error outline_json e He)].
Qed.

(** C10.  Take two runs for the same memory id in which the memories found
    have the same [patient_id] and the texts the model answered decode to
    documents with the same value at [steps], whatever else the documents
    hold.  Then an outline passed to the repository in one run equals an
    outline passed in the other, and, no collaborator having raised in
    either, the two runs pass the same outlines. *)
Theorem outline_ignores_the_ids_of_the_response :
  forall (S1 S2 : Type) (h1 : Handler S1) (h2 : Handler S2) (s1 : S1) (s2 : S2)
         (memory_id : string) (m1 m2 : Memory)
         (response1 response2 : openai.ChatCompletion) (choice1 choice2 : openai.Choice)
         (others1 others2 : list openai.Choice) (text1 text2 : string)
         (outline_json1 outline_json2 : PyValue),
    In (Some m1)
       (memory_lookups (calls h1 (generate_and_save_therapy_outline json_loads Step_init memory_id) s1)) ->
    In (Some m2)
       (memory_lookups (calls h2 (generate_and_save_therapy_outline json_loads Step_init memory_id) s2)) ->
    patient_id m1 = patient_id m2 ->
    In response1
       (completions (calls h1 (generate_and_save_therapy_outline json_loads Step_init memory_id) s1)) ->
    In response2
       (completions (calls h2 (generate_and_save_therapy_outline json_loads Step_init memory_id) s2)) ->
    openai.choices response1 = choice1 :: others1 ->
    openai.choices response2 = choice2 :: others2 ->
    openai.message_content choice1 = Some text1 ->
    openai.message_content choice2 = Some text2 ->
    json_loads text1 = inr outline_json1 ->
    json_loads text2 = inr outline_json2 ->
    py_getitem outline_json1 "steps" = py_getitem outline_json2 "steps" ->
    (forall o1 o2,
        In o1 (saved_outlines
                 (calls h1 (generate_and_save_therapy_outline json_loads Step_init memory_id) s1)) ->
        In o2 (saved_outlines
                 (calls h2 (generate_and_save_therapy_outline json_loads Step_init memory_id) s2)) ->
        o1 = o2) /\
    (failures (calls h1 (generate_and_save_therapy_outline json_loads Step_init memory_id) s1) = [] ->
     failures (calls h2 (generate_and_save_therapy_outline json_loads Step_init memory_id) s2) = [] ->
     saved_outlines (calls h1 (generate_and_save_therapy_outline json_loads Step_init memory_id) s1)
       = saved_outlines
           (calls h2 (generate_and_save_therapy_outline json_loads Step_init memory_id) s2)).
Proof.
  intros S1 S2 h1 h2 s1 s2 memory_id m1 m2 response1 response2 choice1 choice2
         others1 others2 text1 text2 outline_json1 outline_json2
         Hm1 Hm2 Hpid Hin1 Hin2 Hch1 Hch2 Ht1 Ht2 Hj1 Hj2 Hsteps.
  destruct (@run_after_decoding S1 h1 s1 memory_id response1 choice1 others1 text1
              outline_json1 Hin1 Hch1 Ht1 Hj1) as (m1' & Hl1 & Hc1).
  destruct (@run_after_decoding S2 h2 s2 memory_id response2 choice2 others2 text2
              outline_json2 Hin2 Hch2 Ht2 Hj2) as (m2' & Hl2 & Hc2).
  rewrite Hl1 in Hm1. destruct Hm1 as [Hm1 | []]. injection Hm1 as ->.
  rewrite Hl2 in Hm2. destruct Hm2 as [Hm2 | []]. injection Hm2 as ->.
  assert (Heq : steps_of Step_init outline_json1 = steps_of Step_init outline_json2).
  { unfold steps_of. now rewrite Hsteps. }
  rewrite <- Heq in Hc2.
  destruct (steps_of Step_init outline_json1) as [e | steps]; cbv beta iota zeta in Hc1, Hc2.
  - destruct Hc1 as [-> _], Hc2 as [-> _]. split; [intros o1 o2 [] | reflexivity].
  - destruct Hc1 as [Hall1 Hone1], Hc2 as [Hall2 Hone2]. split.
    + intros o1 o2 Ho1 Ho2. rewrite (Hall1 o1 Ho1), (Hall2 o2 Ho2). now rewrite Hpid.
    + intros Hf1 Hf2. rewrite (Hone1 Hf1), (Hone2 Hf2). now rewrite Hpid.
Qed.

End Pipeline.

(** C7.  When the repository answers the lookup of a memory id with an
    outline, [get_therapy_outline_by_memory_id] returns that outline: the
    run is that one lookup, with the same id, and leaves the state where
    the lookup left it. *)
Theorem get_therapy_outline_by_memory_id_is_the_repository_lookup :
  forall (S : Type) (h : Handler S) (s s' : S) (memory_id : string)
         (outline : model.TherapyOutline),
    h _ (RepositoryGetTherapyOutlineByMemoryId memory_id) s = (inr outline, s') ->
    outcome h (get_therapy_outline_by_memory_id memory_id) s = inr outline /\
    final_state h (get_therapy_outline_by_memory_id memory_id) s = s' /\
    calls h (get_therapy_outline_by_memory_id memory_id) s
      = [ Called (RepositoryGetTherapyOutlineByMemoryId memory_id) (inr outline) ].
Proof.
  intros S h s s' memory_id outline H.
  unfold outcome, final_state, calls, get_therapy_outline_by_memory_id, call.
  cbn. rewrite H. repeat split.
Qed.

(* ------------------------------------------------------------------ *)
(** ** The worked example *)

Lemma example_response_decodes :
  json.loads example_response
  = inr example_document.
Proof.
  vm_compute. reflexivity.
Qed.

Lemma example_response_steps (outline_json : PyValue) :
  json.loads example_response = inr outline_json ->
  steps_of model.Step_init outline_json = inr [ example_step ].
Proof.
  rewrite example_response_decodes. intros H. injection H as <-. vm_compute. reflexivity.
Qed.

(** C6.  When the text the model answered is the example response, every
    outline passed to the repository has exactly one step, of type
    [INTRODUCTION] and with the voice [alloy] in its script; and, no
    collaborator having raised, one outline is passed. *)
Theorem example_response_gives_one_introduction_step_voiced_alloy :
  forall (S : Type) (h : Handler S) (s : S) (memory_id : string)
         (response : openai.ChatCompletion) (choice : openai.Choice)
         (others : list openai.Choice),
    In response
       (completions
          (calls h (generate_and_save_therapy_outline json.loads model.Step_init memory_id) s)) ->
    openai.choices response = choice :: others ->
    openai.message_content choice = Some example_response ->
    (forall o,
        In o (saved_outlines
                (calls h (generate_and_save_therapy_outline json.loads model.Step_init memory_id) s)) ->
        exists st,
          model.steps o = [ st ] /\
          model.type st = model.INTRODUCTION /\
          model.voice (model.script st) = model.alloy) /\
    (failures
       (calls h (generate_and_save_therapy_outline json.loads model.Step_init memory_id) s) = [] ->
     exists o,
       saved_outlines
         (calls h (generate_and_save_therapy_outline json.loads model.Step_init memory_id) s)
       = [ o ]).
Proof.
  intros S h s memory_id response choice others Hin Hch Htext.
  destruct (@run_after_decoding json.loads model.Step_init S h s memory_id response choice
              others example_response _ Hin Hch Htext example_response_decodes)
    as (m & _ & Hcases).
  rewrite (example_response_steps _ example_response_decodes) in Hcases.
  cbv beta iota zeta in Hcases. destruct Hcases as [Hall Hone].
  split.
  - intros o Ho. rewrite (Hall o Ho). exists example_step. repeat split.
  - intros Hf. rewrite (Hone Hf). eexists. reflexivity.
Qed.

(* ------------------------------------------------------------------ *)
(** ** The claims at concrete inputs *)

(** C1 in the in-memory world, the model answering [not json]. *)
Lemma invalid_json_witness :
  saved_outlines
    (calls InMemory.handler
       (generate_and_save_therapy_outline json.loads model.Step_init "m1")
       (InMemory.answering (Some "not json"))) = [] /\
  outcome InMemory.handler
    (generate_and_save_therapy_outline json.loads model.Step_init "m1")
    (InMemory.answering (Some "not json"))
  = inl (ValueError
           "Invalid JSON output from OpenAI: Expecting value: line 1 column 1 (char 0)").
Proof.
  destruct (@invalid_json_is_a_ValueError_and_nothing_is_saved
              json.loads model.Step_init _ InMemory.handler
              (InMemory.answering (Some "not json")) "m1"
              {| openai.choices := [ {| openai.message_content := Some "not json" |} ] |}
              {| openai.message_content := Some "not json" |} [] "not json"
              {| msg := "Expecting value"; doc := "not json"; pos := 0 |})
    as [Hsaved Hout].
  - vm_compute. left. reflexivity.
  - reflexivity.
  - reflexivity.
  - vm_compute. reflexivity.
  - split; [exact Hsaved |]. rewrite Hout; [| vm_compute; reflexivity].
    vm_compute. reflexivity.
Defined.

(** C2 in the in-memory world, for an id no memory has. *)
Lemma missing_memory_witness :
  outcome InMemory.handler
    (generate_and_save_therapy_outline json.loads model.Step_init "m404")
    (InMemory.answering (Some example_response))
  = inl (AttributeError "'NoneType' object has no attribute 'patient_id'").
Proof.
  apply (@missing_memory_is_an_AttributeError
           json.loads model.Step_init _ InMemory.handler
           (InMemory.answering (Some example_response)) "m404").
  vm_compute. left. reflexivity.
Defined.

(** C3 in the in-memory world, the model answering the example response. *)
Lemma saved_outline_witness :
  saved_outlines
    (calls InMemory.handler
       (generate_and_save_therapy_outline json.loads model.Step_init "m1")
       (InMemory.answering (Some example_response)))
  = [ {| model.patient_id := "p1"; model.memory_id := "m1";
         model.steps := [ example_step ] |} ].
Proof.
  destruct (@saved_outline_has_the_input_id_and_the_patient_of_the_memory
              json.loads model.Step_init _ InMemory.handler
              (InMemory.answering (Some example_response)) "m1" InMemory.wedding
              {| openai.choices := [ {| openai.message_content := Some example_response |} ] |}
              {| openai.message_content := Some example_response |} [] example_response
              example_document [ example_step ])
    as [_ Hone].
  - vm_compute. left. reflexivity.
  - vm_compute. left. reflexivity.
  - reflexivity.
  - reflexivity.
  - exact example_response_decodes.
  - vm_compute. reflexivity.
  - apply Hone. vm_compute. reflexivity.
Defined.

(** C4 as amended, on the payload of the in-memory world. *)
Lemma prompt_witness :
  exists prompt,
    _construct_therapy_outline_prompt
      (PyDict [ ("memory_id", PyStr "m1");
                ("memory_details", memory_dump InMemory.wedding);
                ("patient_details", patient_dump InMemory.ann) ]) = inr prompt /\
    Substring "{'_id': 'm1', 'patient_id': 'p1', 'title': 'Wedding day'}" prompt /\
    Substring "{'_id': 'p1', 'name': 'Ann'}" prompt /\
    ~ Substring fence prompt.
Proof.
  destruct (payload_has_prompt (PyStr "m1") (memory_dump InMemory.wedding)
              (patient_dump InMemory.ann)) as [prompt Hprompt].
  exists prompt. split; [exact Hprompt |].
  destruct (prompt_contains_the_payloads_and_only_their_fences _ _ Hprompt)
    as (md & pd & Hmd & Hpd & Hsub1 & Hsub2 & Hfence).
  cbn in Hmd, Hpd. injection Hmd as <-. injection Hpd as <-.
  split; [exact Hsub1 |]. split; [exact Hsub2 |].
  rewrite Hfence, <- !contains_iff. vm_compute. intros [H | H]; discriminate H.
Defined.

(** C4 as stated fails on [fenced_payload]: the prompt does not contain
    the memory id, and it contains a code fence. *)
Lemma prompt_without_the_memory_id_and_with_a_fence :
  exists prompt,
    _construct_therapy_outline_prompt fenced_payload = inr prompt /\
    ~ Substring "6750373dae22fe6413d7e324" prompt /\
    Substring fence prompt.
Proof.
  eexists. split; [reflexivity |].
  rewrite <- !contains_iff. split; vm_compute; [discriminate | reflexivity].
Qed.

(** C5 in an in-memory world whose client answers two choices, the
    example response first and a text that does not decode second: the
    request is the one for the prompt, and the document returned is that of
    the first choice. *)
Lemma model_request_witness :
  (exists prompt,
      _construct_therapy_outline_prompt
        (PyDict [ ("memory_details", memory_dump InMemory.wedding);
                  ("patient_details", patient_dump InMemory.ann) ]) = inr prompt /\
      chat_requests
        (calls InMemory.handler
           (_generate_therapy_outline json.loads
              (PyDict [ ("memory_details", memory_dump InMemory.wedding);
                        ("patient_details", patient_dump InMemory.ann) ]))
           {| InMemory.memories := [ ("m1", InMemory.wedding) ];
              InMemory.patients := [ ("p1", InMemory.ann) ];
              InMemory.scripted :=
                inr {| openai.choices :=
                         [ {| openai.message_content := Some example_response |};
                           {| openai.message_content := Some "not json" |} ] |};
              InMemory.outlines := [];
              InMemory.logged := [] |})
      = [ {| openai.model := "gpt-4o";
             openai.messages :=
               [ {| openai.role := "system";
                    openai.content :=
                      [ {| openai.type := "text";
                           openai.text :=
                             "You are an AI assistant specializing in reminiscence therapy." |} ] |};
                 {| openai.role := "user";
                    openai.content :=
                      [ {| openai.type := "text"; openai.text := prompt |} ] |} ];
             openai.temperature := 0.2 |} ]) /\
  outcome InMemory.handler
    (_generate_therapy_outline json.loads
       (PyDict [ ("memory_details", memory_dump InMemory.wedding);
                 ("patient_details", patient_dump InMemory.ann) ]))
    {| InMemory.memories := [ ("m1", InMemory.wedding) ];
       InMemory.patients := [ ("p1", InMemory.ann) ];
       InMemory.scripted :=
         inr {| openai.choices :=
                  [ {| openai.message_content := Some example_response |};
                    {| openai.message_content := Some "not json" |} ] |};
       InMemory.outlines := [];
       InMemory.logged := [] |}
  = inr example_document.
Proof.
  set (w := {| InMemory.memories := [ ("m1", InMemory.wedding) ];
               InMemory.patients := [ ("p1", InMemory.ann) ];
               InMemory.scripted :=
                 inr {| openai.choices :=
                          [ {| openai.message_content := Some example_response |};
                            {| openai.message_content := Some "not json" |} ] |};
               InMemory.outlines := [];
               InMemory.logged := [] |}).
  destruct (@model_request_and_output_taken json.loads _ InMemory.handler w
              (PyDict [ ("memory_details", memory_dump InMemory.wedding);
                        ("patient_details", patient_dump InMemory.ann) ]))
    as [Hrequest Houtput].
  split.
  - match type of Hrequest with
    | forall request, In request ?l -> _ =>
        destruct l as [| request l'] eqn:Hl; [vm_compute in Hl; discriminate Hl |]
    end.
    destruct (Hrequest request (or_introl eq_refl)) as (prompt & Hprompt & ->).
    exists prompt. split; [exact Hprompt |].
    destruct l' as [| r l'']; [reflexivity | vm_compute in Hl; discriminate Hl].
  - rewrite (Houtput
               {| openai.choices :=
                    [ {| openai.message_content := Some example_response |};
                      {| openai.message_content := Some "not json" |} ] |}
               {| openai.message_content := Some example_response |}
               [ {| openai.message_content := Some "not json" |} ]).
    + cbn [openai.message_content]. rewrite example_response_decodes. reflexivity.
    + vm_compute. left. reflexivity.
    + reflexivity.
    + vm_compute. reflexivity.
Defined.

(** C6 in the in-memory world. *)
Lemma example_response_witness :
  exists o st,
    saved_outlines
      (calls InMemory.handler
         (generate_and_save_therapy_outline json.loads model.Step_init "m1")
         (InMemory.answering (Some example_response))) = [ o ] /\
    model.steps o = [ st ] /\
    model.type st = model.INTRODUCTION /\
    model.voice (model.script st) = model.alloy.
Proof.
  destruct (@example_response_gives_one_introduction_step_voiced_alloy
              _ InMemory.handler (InMemory.answering (Some example_response)) "m1"
              {| openai.choices := [ {| openai.message_content := Some example_response |} ] |}
              {| openai.message_content := Some example_response |} [])
    as [Hall Hone].
  - vm_compute. left. reflexivity.
  - reflexivity.
  - reflexivity.
  - destruct Hone as [o Ho]; [vm_compute; reflexivity |].
    destruct (Hall o) as (st & Hsteps & Htype & Hvoice); [rewrite Ho; now left |].
    now exists o, st.
Defined.

(** C7 in the in-memory world: the outline a generation saved is the one
    the lookup returns afterwards. *)
Lemma lookup_after_generation_witness :
  outcome InMemory.handler (get_therapy_outline_by_memory_id "m1")
    (final_state InMemory.handler
       (generate_and_save_therapy_outline json.loads model.Step_init "m1")
       (InMemory.answering (Some example_response)))
  = inr {| model.patient_id := "p1"; model.memory_id := "m1";
           model.steps := [ example_step ] |}.
Proof.
  eapply (@get_therapy_outline_by_memory_id_is_the_repository_lookup
            _ InMemory.handler _ _ "m1").
  vm_compute. reflexivity.
Defined.

(** C8 in an in-memory world whose chat client raises. *)
Lemma failure_propagates_witness :
  outcome InMemory.handler
    (generate_and_save_therapy_outline json.loads model.Step_init "m1")
    {| InMemory.memories := [ ("m1", InMemory.wedding) ];
       InMemory.patients := [ ("p1", InMemory.ann) ];
       InMemory.scripted := inl (OtherError "APIConnectionError" "Connection error.");
       InMemory.outlines := [];
       InMemory.logged := [] |}
  = inl (OtherError "APIConnectionError" "Connection error.").
Proof.
  apply (@one_model_call_and_failures_propagate json.loads model.Step_init
           _ InMemory.handler).
  vm_compute. left. reflexivity.
Defined.

(** C9 as amended, in the in-memory world, the model answering a document
    without [steps]. *)
Lemma missing_steps_witness :
  saved_outlines
    (calls InMemory.handler
       (generate_and_save_therapy_outline json.loads model.Step_init "m1")
       (InMemory.answering (Some response_without_steps))) = [] /\
  outcome InMemory.handler
    (generate_and_save_therapy_outline json.loads model.Step_init "m1")
    (InMemory.answering (Some response_without_steps))
  = inl (KeyError "steps").
Proof.
  destruct (@shape_errors_are_raised_unwrapped_and_nothing_is_saved
              json.loads model.Step_init _ InMemory.handler
              (InMemory.answering (Some response_without_steps)) "m1"
              {| openai.choices :=
                   [ {| openai.message_content := Some response_without_steps |} ] |}
              {| openai.message_content := Some response_without_steps |} []
              response_without_steps
              (PyDict [ ("patient_id", PyStr "p1"); ("memory_id", PyStr "m1") ]))
    as (_ & Hkey & Hrun).
  - vm_compute. left. reflexivity.
  - reflexivity.
  - reflexivity.
  - vm_compute. reflexivity.
  - destruct (Hrun (KeyError "steps")) as (Hsaved & Hout & _).
    + now apply (Hkey [ ("patient_id", PyStr "p1"); ("memory_id", PyStr "m1") ]).
    + split; [exact Hsaved | apply Hout; vm_compute; reflexivity].
Defined.

(** C9 as stated fails on [response_with_text_steps]: the text is valid
    JSON, the document is not an outline document, and the method returns
    and saves an outline without steps. *)
Lemma text_steps_are_saved_as_no_steps :
  exists outline_json,
    json.loads response_with_text_steps = inr outline_json /\
    spec_outline_shape outline_json = false /\
    outcome InMemory.handler
      (generate_and_save_therapy_outline json.loads model.Step_init "m1")
      (InMemory.answering (Some response_with_text_steps)) = inr "outline-0" /\
    saved_outlines
      (calls InMemory.handler
         (generate_and_save_therapy_outline json.loads model.Step_init "m1")
         (InMemory.answering (Some response_with_text_steps)))
    = [ {| model.patient_id := "p1"; model.memory_id := "m1"; model.steps := [] |} ].
Proof.
  eexists. split; [vm_compute; reflexivity |].
  repeat split; vm_compute; reflexivity.
Qed.

(** C10 on two in-memory worlds, the model answering the same steps under
    different identifiers. *)
Lemma other_ids_witness :
  saved_outlines
    (calls InMemory.handler
       (generate_and_save_therapy_outline json.loads model.Step_init "m1")
       (InMemory.answering (Some example_response)))
  = saved_outlines
      (calls InMemory.handler
         (generate_and_save_therapy_outline json.loads model.Step_init "m1")
         (InMemory.answering (Some example_response_other_ids))).
Proof.
  destruct (@outline_ignores_the_ids_of_the_response
              json.loads model.Step_init _ _ InMemory.handler InMemory.handler
              (InMemory.answering (Some example_response))
              (InMemory.answering (Some example_response_other_ids))
              "m1" InMemory.wedding InMemory.wedding
              {| openai.choices := [ {| openai.message_content := Some example_response |} ] |}
              {| openai.choices :=
                   [ {| openai.message_content := Some example_response_other_ids |} ] |}
              {| openai.message_content := Some example_response |}
              {| openai.message_content := Some example_response_other_ids |}
              [] [] example_response example_response_other_ids
              example_document example_document_other_ids)
    as [_ Hsame].
  - vm_compute. left. reflexivity.
  - vm_compute. left. reflexivity.
  - reflexivity.
  - vm_compute. left. reflexivity.
  - vm_compute. left. reflexivity.
  - reflexivity.
  - reflexivity.
  - reflexivity.
  - reflexivity.
  - vm_compute. reflexivity.
  - vm_compute. reflexivity.
  - reflexivity.
  - apply Hsame; vm_compute; reflexivity.
Defined.

(* ------------------------------------------------------------------ *)
(** ** More on the pipeline *)

Section PipelineCalls.

Variable json_loads : string -> JSONDecodeError + PyValue.
Variable Step_init : list (string * PyValue) -> Result model.Step.

(** X1.  A run that passes an outline to the repository has made exactly
    seven calls, in this order: the starting log, the memory lookup, the
    lookup of the patient of that memory, the model request with the
    prompt of their payload, the log of the text answered, the log of the
    save, and the save; what the save answers is what the method returns
    or raises. *)
Theorem a_save_ends_a_run_of_seven_calls :
  forall (S : Type) (h : Handler S) (s : S) (memory_id : string) (o : model.TherapyOutline),
    In o (saved_outlines
            (calls h (generate_and_save_therapy_outline json_loads Step_init memory_id) s)) ->
    exists memory patient prompt response choice others text answer,
      _construct_therapy_outline_prompt (payload_of memory_id memory patient) = inr prompt /\
      openai.choices response = choice :: others /\
      openai.message_content choice = Some text /\
      calls h (generate_and_save_therapy_outline json_loads Step_init memory_id) s
        = [ Called (LoggerInfo "Generating therapy outline for memory: %s" (PyStr memory_id))
              (inr tt);
            Called (GetMemoryById memory_id) (inr (Some memory));
            Called (GetPatientById (patient_id memory)) (inr patient);
            Called (ChatCompletionsCreate (request_of prompt)) (inr response);
            Called (LoggerInfo "Therapy outline generated by OpenAI: %s" (PyStr text)) (inr tt);
            Called (LoggerInfo "Saving therapy outline for memory: %s" (PyStr memory_id))
              (inr tt);
            Called (SaveTherapyOutline o) answer ] /\
      outcome h (generate_and_save_therapy_outline json_loads Step_init memory_id) s = answer.
Proof.
  intros S h s memory_id o Hin.
  on_run h (generate_and_save_therapy_outline json_loads Step_init memory_id) s.
  all: only_one; subst; try contradiction.
  all: repeat match goal with u : unit |- _ => destruct u end.
  all: match goal with
       | Hm : _ _ (GetMemoryById _) _ = (inr (Some ?m), _),
         Hp : _ _ (GetPatientById _) _ = (inr ?p, _),
         Hc : _construct_therapy_outline_prompt _ = inr ?prompt,
         Hr : _ _ (ChatCompletionsCreate _) _ = (inr ?c, _),
         Hch : openai.choices ?c = ?c0 :: ?l,
         Ht : openai.message_content ?c0 = Some ?t |- _ =>
           exists m, p, prompt, c, c0, l, t
       end.
  all: eexists; repeat split; first [assumption | reflexivity].
Qed.

(** X2.  The method returns a value only at the end of a run in which no
    call failed, the model was called once and one outline was saved, and
    the value is what the repository answered to that save, the last call
    of the run. *)
Theorem a_return_is_the_answer_of_the_save :
  forall (S : Type) (h : Handler S) (s : S) (memory_id : string) (r : string),
    outcome h (generate_and_save_therapy_outline json_loads Step_init memory_id) s = inr r ->
    exists o before,
      calls h (generate_and_save_therapy_outline json_loads Step_init memory_id) s
        = (before ++ [ Called (SaveTherapyOutline o) (inr r) ])%list /\
      saved_outlines (calls h (generate_and_save_therapy_outline json_loads Step_init memory_id) s)
        = [ o ] /\
      List.length
        (chat_requests (calls h (generate_and_save_therapy_outline json_loads Step_init memory_id) s))
        = 1 /\
      failures (calls h (generate_and_save_therapy_outline json_loads Step_init memory_id) s) = [].
Proof.
  intros S h s memory_id r Hout.
  on_run h (generate_and_save_therapy_outline json_loads Step_init memory_id) s.
  all: try discriminate Hout.
  injection Hout as ->.
  eexists. eexists (_ :: _ :: _ :: _ :: _ :: [_]). repeat split.
Qed.

(** X3.  A run of the method looks the memory up at most once, the patient
    at most once, saves at most once, logs at most three times, and never
    asks the repository for an outline it may already hold. *)
Theorem calls_of_a_run_are_bounded :
  forall (S : Type) (h : Handler S) (s : S) (memory_id : string),
    List.length
      (memory_requests (calls h (generate_and_save_therapy_outline json_loads Step_init memory_id) s))
      <= 1 /\
    List.length
      (patient_requests (calls h (generate_and_save_therapy_outline json_loads Step_init memory_id) s))
      <= 1 /\
    List.length
      (saved_outlines (calls h (generate_and_save_therapy_outline json_loads Step_init memory_id) s))
      <= 1 /\
    List.length
      (logged_calls (calls h (generate_and_save_therapy_outline json_loads Step_init memory_id) s))
      <= 3 /\
    repository_lookups (calls h (generate_and_save_therapy_outline json_loads Step_init memory_id) s)
      = [].
Proof.
  intros S h s memory_id.
  on_run h (generate_and_save_therapy_outline json_loads Step_init memory_id) s.
  all: repeat split; lia.
Qed.

(** What a run that called the model did before: it found the memory and
    its patient, and sent the prompt of their payload. *)
Lemma request_of_run :
  forall (S : Type) (h : Handler S) (s : S) (memory_id : string) (request : openai.Request),
    In request
       (chat_requests (calls h (generate_and_save_therapy_outline json_loads Step_init memory_id) s)) ->
    exists memory patient prompt,
      memory_lookups (calls h (generate_and_save_therapy_outline json_loads Step_init memory_id) s)
        = [ Some memory ] /\
      patient_requests (calls h (generate_and_save_therapy_outline json_loads Step_init memory_id) s)
        = [ patient_id memory ] /\
      patient_lookups (calls h (generate_and_save_therapy_outline json_loads Step_init memory_id) s)
        = [ patient ] /\
      _construct_therapy_outline_prompt (payload_of memory_id memory patient) = inr prompt /\
      request = request_of prompt.
Proof.
  intros S h s memory_id request Hin.
  on_run h (generate_and_save_therapy_outline json_loads Step_init memory_id) s.
  all: only_one; subst; try contradiction.
  all: match goal with
       | Hm : _ _ (GetMemoryById _) _ = (inr (Some ?m), _),
         Hp : _ _ (GetPatientById _) _ = (inr ?p, _),
         Hc : _construct_therapy_outline_prompt _ = inr ?prompt |- _ =>
           exists m, p, prompt
       end.
  all: repeat split; first [assumption | reflexivity].
Qed.

(** X4.  The model is called only after the memory and its patient were
    found, and the request then sent is the one for the prompt built from
    the input id and the dumps of that memory and that patient. *)
Theorem the_model_is_asked_about_the_memory_and_patient_found :
  forall (S : Type) (h : Handler S) (s : S) (memory_id : string) (request : openai.Request),
    In request
       (chat_requests (calls h (generate_and_save_therapy_outline json_loads Step_init memory_id) s)) ->
    exists memory patient prompt,
      In (Some memory)
         (memory_lookups
            (calls h (generate_and_save_therapy_outline json_loads Step_init memory_id) s)) /\
      In patient
         (patient_lookups
            (calls h (generate_and_save_therapy_outline json_loads Step_init memory_id) s)) /\
      _construct_therapy_outline_prompt
        (PyDict [ ("memory_id", PyStr memory_id);
                  ("memory_details", memory_dump memory);
                  ("patient_details", patient_dump patient) ]) = inr prompt /\
      request =
        {| openai.model := "gpt-4o";
           openai.messages := [ system_message; user_message prompt ];
           openai.temperature := 0.2 |}.
Proof.
  intros S h s memory_id request Hin.
  destruct (request_of_run _ h s memory_id request Hin)
    as (memory & patient & prompt & Hm & _ & Hp & Hprompt & Hreq).
  exists memory, patient, prompt. rewrite Hm, Hp.
  repeat split; [now left | now left | exact Hprompt | exact Hreq].
Qed.

(** X5.  Whenever a run looks a patient up, it is the patient whose id the
    memory found carries. *)
Theorem the_patient_looked_up_is_the_one_of_the_memory :
  forall (S : Type) (h : Handler S) (s : S) (memory_id patient_id' : string),
    In patient_id'
       (patient_requests
          (calls h (generate_and_save_therapy_outline json_loads Step_init memory_id) s)) ->
    exists memory,
      memory_lookups (calls h (generate_and_save_therapy_outline json_loads Step_init memory_id) s)
        = [ Some memory ] /\
      memory_requests (calls h (generate_and_save_therapy_outline json_loads Step_init memory_id) s)
        = [ memory_id ] /\
      patient_id' = patient_id memory.
Proof.
  intros S h s memory_id patient_id' Hin.
  on_run h (generate_and_save_therapy_outline json_loads Step_init memory_id) s.
  all: only_one; subst; try contradiction.
  all: eexists; repeat split.
Qed.

(** X6.  Two runs, for any two memory ids, in which the memories found
    have the same dump and the patients found have the same dump, send the
    model the same requests: the memory id is not part of what is sent. *)
Theorem the_request_does_not_carry_the_memory_id :
  forall (S1 S2 : Type) (h1 : Handler S1) (h2 : Handler S2) (s1 : S1) (s2 : S2)
         (memory_id1 memory_id2 : string) (m1 m2 : Memory) (p1 p2 : Patient)
         (request1 request2 : openai.Request),
    In request1
       (chat_requests
          (calls h1 (generate_and_save_therapy_outline json_loads Step_init memory_id1) s1)) ->
    In request2
       (chat_requests
          (calls h2 (generate_and_save_therapy_outline json_loads Step_init memory_id2) s2)) ->
    In (Some m1)
       (memory_lookups
          (calls h1 (generate_and_save_therapy_outline json_loads Step_init memory_id1) s1)) ->
    In (Some m2)
       (memory_lookups
          (calls h2 (generate_and_save_therapy_outline json_loads Step_init memory_id2) s2)) ->
    In p1
       (patient_lookups
          (calls h1 (generate_and_save_therapy_outline json_loads Step_init memory_id1) s1)) ->
    In p2
       (patient_lookups
          (calls h2 (generate_and_save_therapy_outline json_loads Step_init memory_id2) s2)) ->
    memory_dump m1 = memory_dump m2 ->
    patient_dump p1 = patient_dump p2 ->
    request1 = request2.
Proof.
  intros S1 S2 h1 h2 s1 s2 memory_id1 memory_id2 m1 m2 p1 p2 request1 request2
         Hr1 Hr2 Hm1 Hm2 Hp1 Hp2 Hmd Hpd.
  destruct (request_of_run _ h1 s1 memory_id1 request1 Hr1)
    as (m1' & p1' & prompt1 & Hl1 & _ & Hq1 & Hprompt1 & ->).
  destruct (request_of_run _ h2 s2 memory_id2 request2 Hr2)
    as (m2' & p2' & prompt2 & Hl2 & _ & Hq2 & Hprompt2 & ->).
  rewrite Hl1 in Hm1. rewrite Hl2 in Hm2. rewrite Hq1 in Hp1. rewrite Hq2 in Hp2.
  destruct Hm1 as [Hm1 | []], Hm2 as [Hm2 | []], Hp1 as [-> | []], Hp2 as [-> | []].
  injection Hm1 as ->. injection Hm2 as ->.
  unfold payload_of, _construct_therapy_outline_prompt in Hprompt1, Hprompt2.
  cbn [py_getitem dict_get String.eqb Ascii.eqb Bool.eqb rbind ok] in Hprompt1, Hprompt2.
  rewrite Hmd, Hpd in Hprompt1. rewrite Hprompt1 in Hprompt2.
  injection Hprompt2 as ->. reflexivity.
Qed.

End PipelineCalls.

Section PipelineEdges.

Variable json_loads : string -> JSONDecodeError + PyValue.
Variable Step_init : list (string * PyValue) -> Result model.Step.

(** X7.  The prompt is built exactly from the payloads that are dicts with
    the keys [memory_details] and [patient_details].  For any other
    payload the generation step raises before it calls anyone: a
    [KeyError] on the first of the two keys that is missing, in that
    order, or a [TypeError] when the payload is not a dict. *)
Theorem without_a_prompt_nobody_is_called :
  forall (S : Type) (h : Handler S) (s : S) (input_data : PyValue),
    (forall items memory_details patient_details,
        input_data = PyDict items ->
        dict_get "memory_details" items = Some memory_details ->
        dict_get "patient_details" items = Some patient_details ->
        exists prompt, _construct_therapy_outline_prompt input_data = inr prompt) /\
    (forall e,
        _construct_therapy_outline_prompt input_data = inl e ->
        calls h (_generate_therapy_outline json_loads input_data) s = [] /\
        outcome h (_generate_therapy_outline json_loads input_data) s = inl e /\
        final_state h (_generate_therapy_outline json_loads input_data) s = s /\
        ((exists items,
             input_data = PyDict items /\ dict_get "memory_details" items = None /\
             e = KeyError "memory_details") \/
         (exists items memory_details,
             input_data = PyDict items /\
             dict_get "memory_details" items = Some memory_details /\
             dict_get "patient_details" items = None /\
             e = KeyError "patient_details") \/
         ((forall items, input_data <> PyDict items) /\ exists m, e = TypeError m))).
Proof.
  intros S h s input_data. split.
  - intros items md pd -> Hmd Hpd.
    unfold _construct_therapy_outline_prompt, py_getitem. rewrite Hmd, Hpd.
    eexists. reflexivity.
  - intros e He. repeat split.
    + unfold calls, _generate_therapy_outline. rewrite He. reflexivity.
    + unfold outcome, _generate_therapy_outline. rewrite He. reflexivity.
    + unfold final_state, _generate_therapy_outline. rewrite He. reflexivity.
    + unfold _construct_therapy_outline_prompt in He.
      destruct input_data;
        try (right; right; split; [discriminate | cbn in He; injection He as <-; eauto]).
      unfold py_getitem in He.
      destruct (dict_get "memory_details" items) as [md |] eqn:Hmd.
      * destruct (dict_get "patient_details" items) as [pd |] eqn:Hpd;
          [discriminate He |].
        cbn in He. injection He as <-. right. left. now exists items, md.
      * cbn in He. injection He as <-. left. now exists items.
Qed.

(** X8.  When the completion the model answered has no choice, the method
    raises the [IndexError] of taking the first one: the answer is not
    logged, nothing is saved, and only the starting log was written. *)
Theorem a_completion_without_choices_is_an_IndexError :
  forall (S : Type) (h : Handler S) (s : S) (memory_id : string)
         (response : openai.ChatCompletion),
    In response
       (completions (calls h (generate_and_save_therapy_outline json_loads Step_init memory_id) s)) ->
    openai.choices response = [] ->
    outcome h (generate_and_save_therapy_outline json_loads Step_init memory_id) s
      = inl (IndexError "list index out of range") /\
    saved_outlines (calls h (generate_and_save_therapy_outline json_loads Step_init memory_id) s)
      = [] /\
    logged_calls (calls h (generate_and_save_therapy_outline json_loads Step_init memory_id) s)
      = [ ("Generating therapy outline for memory: %s", PyStr memory_id) ].
Proof.
  intros S h s memory_id response Hin Hch.
  on_run h (generate_and_save_therapy_outline json_loads Step_init memory_id) s.
  all: only_one; subst; try contradiction; agree.
  repeat split.
Qed.

(** X9.  When the first choice of the completion carries no text, nothing
    is saved and, no collaborator having raised, the method raises the
    [TypeError] of decoding [None], not the [ValueError] of a text that
    does not decode. *)
Theorem a_choice_without_text_is_a_TypeError :
  forall (S : Type) (h : Handler S) (s : S) (memory_id : string)
         (response : openai.ChatCompletion) (choice : openai.Choice)
         (others : list openai.Choice),
    In response
       (completions (calls h (generate_and_save_therapy_outline json_loads Step_init memory_id) s)) ->
    openai.choices response = choice :: others ->
    openai.message_content choice = None ->
    saved_outlines (calls h (generate_and_save_therapy_outline json_loads Step_init memory_id) s)
      = [] /\
    (failures (calls h (generate_and_save_therapy_outline json_loads Step_init memory_id) s) = [] ->
     outcome h (generate_and_save_therapy_outline json_loads Step_init memory_id) s
       = inl (TypeError "the JSON object must be str, bytes or bytearray, not NoneType")).
Proof.
  intros S h s memory_id response choice others Hin Hch Htext.
  on_run h (generate_and_save_therapy_outline json_loads Step_init memory_id) s.
  all: only_one; subst; try contradiction; agree.
  all: split; intros; try reflexivity; discriminate.
Qed.

(** X10.  Whatever the first choice of the completion carries, text that
    decodes, text that does not, or nothing, the method hands it to the
    logger before it parses it. *)
Theorem what_the_model_answered_is_logged :
  forall (S : Type) (h : Handler S) (s : S) (memory_id : string)
         (response : openai.ChatCompletion) (choice : openai.Choice)
         (others : list openai.Choice),
    In response
       (completions (calls h (generate_and_save_therapy_outline json_loads Step_init memory_id) s)) ->
    openai.choices response = choice :: others ->
    In ("Therapy outline generated by OpenAI: %s", py_of_option (openai.message_content choice))
       (logged_calls (calls h (generate_and_save_therapy_outline json_loads Step_init memory_id) s)).
Proof.
  intros S h s memory_id response choice others Hin Hch.
  on_run h (generate_and_save_therapy_outline json_loads Step_init memory_id) s.
  all: only_one; subst; try contradiction; agree.
  all: repeat match goal with
              | H : openai.message_content _ = _ |- _ => rewrite H
              end.
  all: cbn; auto.
Qed.

Lemma comprehension_Forall2 A B (f : A -> Result B) (l : list A) (l' : list B) :
  comprehension f l = inr l' <-> Forall2 (fun x y => f x = inr y) l l'.
Proof.
  split.
  - revert l'; induction l as [| x l IH]; intros l'; simpl.
    + intros H. injection H as <-. constructor.
    + destruct (f x) as [e | y] eqn:Hx; simpl; [discriminate |].
      destruct (comprehension f l) as [e | ys]; simpl; [discriminate |].
      intros H. injection H as <-. constructor; [exact Hx | now apply IH].
  - intros H. induction H as [| x y l l' Hx _ IH]; simpl; [reflexivity |].
    now rewrite Hx, IH.
Qed.

(** X11.  When [steps] of the document is an array, the step list is built
    exactly when every item is an object the [Step] constructor accepts,
    and it then has one step per item, in the order of the array. *)
Theorem steps_follow_the_array_item_by_item :
  forall (outline_json : PyValue) (items : list PyValue) (steps : list model.Step),
    py_getitem outline_json "steps" = inr (PyList items) ->
    (steps_of Step_init outline_json = inr steps <->
     Forall2 (fun item st => exists kwargs, item = PyDict kwargs /\ Step_init kwargs = inr st)
             items steps).
Proof.
  intros outline_json items steps Hget.
  unfold steps_of. rewrite Hget. cbn [rbind py_iter ok].
  rewrite comprehension_Forall2. clear Hget. split.
  - intros H. induction H as [| item st items steps Hx _ IH]; [constructor |].
    constructor; [| exact IH].
    destruct item; cbn in Hx; try discriminate Hx. eauto.
  - intros H. induction H as [| item st items steps Hx _ IH]; [constructor |].
    constructor; [| exact IH].
    destruct Hx as (kwargs & -> & Hx). exact Hx.
Qed.

Lemma comprehension_first_error A B (f : A -> Result B) (good rest : list A) (bad : A)
      (e : Exception) :
  (forall x, In x good -> exists y, f x = inr y) ->
  f bad = inl e ->
  comprehension f (good ++ bad :: rest)%list = inl e.
Proof.
  intros Hgood Hbad. induction good as [| x good IH]; simpl.
  - now rewrite Hbad.
  - destruct (Hgood x (or_introl eq_refl)) as [y ->]. simpl.
    rewrite IH; [reflexivity |]. intros x' Hx'. apply Hgood. now right.
Qed.

(** X12.  The items of the array are built from left to right and the
    first one that is refused ends the construction with its error: the
    items after it are not looked at. *)
Theorem the_first_refused_item_decides :
  forall (outline_json : PyValue) (good rest : list PyValue) (bad : PyValue) (e : Exception),
    py_getitem outline_json "steps" = inr (PyList (good ++ bad :: rest)%list) ->
    (forall item, In item good -> exists st, Step_of Step_init item = inr st) ->
    Step_of Step_init bad = inl e ->
    steps_of Step_init outline_json = inl e.
Proof.
  intros outline_json good rest bad e Hget Hgood Hbad.
  unfold steps_of. rewrite Hget. cbn [rbind py_iter ok].
  now apply comprehension_first_error.
Qed.

Lemma characters_not_nil (a : ascii) (s : string) : characters (String a s) <> [].
Proof.
  cbn [characters]. destruct (characters s) as [| c rest]; [discriminate |].
  destruct s as [| b s']; [discriminate |].
  destruct (is_continuation b); discriminate.
Qed.

(** X13.  When [steps] of the document is not an array: an empty string or
    an empty object gives an empty step list; a string or an object that
    is not empty is a [TypeError], as their characters and keys are
    strings and cannot be unpacked; a number, a boolean or [null] is a
    [TypeError], as they cannot be iterated. *)
Theorem steps_that_are_not_an_array :
  forall (outline_json v : PyValue),
    py_getitem outline_json "steps" = inr v ->
    (v = PyStr EmptyString \/ v = PyDict [] -> steps_of Step_init outline_json = inr []) /\
    (forall a s, v = PyStr (String a s) ->
                 exists m, steps_of Step_init outline_json = inl (TypeError m)) /\
    (forall kv d, v = PyDict (kv :: d) ->
                  exists m, steps_of Step_init outline_json = inl (TypeError m)) /\
    (v = PyNone \/ (exists b, v = PyBool b) \/ (exists z, v = PyInt z) \/
     (exists r, v = PyFloat r) ->
     exists m, steps_of Step_init outline_json = inl (TypeError m)).
Proof.
  intros outline_json v Hget. unfold steps_of. rewrite Hget. cbn [rbind].
  repeat split.
  - intros [-> | ->]; reflexivity.
  - intros a s ->. cbn [py_iter ok].
    pose proof (characters_not_nil a s) as Hne.
    destruct (characters (String a s)) as [| c rest]; [now destruct Hne |].
    eexists. reflexivity.
  - intros [k x] d ->. eexists. reflexivity.
  - intros [-> | [[b ->] | [[z ->] | [r ->]]]]; eexists; reflexivity.
Qed.

(** X14.  The [ValueError] that reports a missing memory is never raised
    by the method's own test: a run ends with it only if a collaborator or
    the [Step] constructor raised that very exception. *)
Theorem the_missing_memory_error_is_never_raised_by_the_test :
  forall (S : Type) (h : Handler S) (s : S) (memory_id : string),
    outcome h (generate_and_save_therapy_outline json_loads Step_init memory_id) s
      = inl (ValueError ("No memory found with ID: " ++ memory_id)) ->
    In (ValueError ("No memory found with ID: " ++ memory_id))
       (failures (calls h (generate_and_save_therapy_outline json_loads Step_init memory_id) s)) \/
    exists kwargs,
      Step_init kwargs = inl (ValueError ("No memory found with ID: " ++ memory_id)).
Proof.
  intros S h s memory_id Hout.
  on_run h (generate_and_save_therapy_outline json_loads Step_init memory_id) s.
  all: try discriminate Hout.
  all: try (injection Hout as ->; left; cbn; auto; fail).
  all: try (cbv [append] in Hout; discriminate Hout).
  all: injection Hout as ->.
  all: try match goal with
           | H : _construct_therapy_outline_prompt (PyDict [ (_, ?a); (_, ?b); (_, ?c) ]) = inl _
             |- _ =>
               destruct (payload_has_prompt a b c) as [prompt Hprompt];
               rewrite Hprompt in H; discriminate H
           end.
  match goal with
  | H : steps_of _ _ = inl _ |- _ =>
      destruct (steps_of_error _ _ _ H) as [H1 | [[m' H1] | H1]];
      [discriminate H1 | discriminate H1 | right; exact H1]
  end.
Qed.

End PipelineEdges.

(* ------------------------------------------------------------------ *)
(** ** More on the prompt and on what is parsed *)

Lemma join_app (sep : string) (l1 l2 : list string) :
  l1 <> [] -> l2 <> [] ->
  join sep (l1 ++ l2)%list = join sep l1 ++ sep ++ join sep l2.
Proof.
  intros H1 H2. induction l1 as [| x l1 IH]; [now destruct H1 |].
  destruct l1 as [| y l1].
  - destruct l2 as [| z l2]; [now destruct H2 | reflexivity].
  - change (join sep ((x :: y :: l1) ++ l2)%list)
      with (x ++ sep ++ join sep ((y :: l1) ++ l2)%list).
    rewrite IH by discriminate.
    change (join sep (x :: y :: l1)) with (x ++ sep ++ join sep (y :: l1)).
    now rewrite !append_assoc.
Qed.

(** X15.  The prompt is a fixed text, then the rendering of
    [memory_details] under the heading [Memory Details:], then the
    rendering of [patient_details] under [Patient Details:], then a fixed
    text that starts the requirements and holds the instruction against
    code block markers: no payload changes the two fixed texts or the
    order. *)
Theorem payloads_stand_under_their_headings :
  exists head tail : string,
    Substring
      "- Provide the output as a valid JSON object without any extra formatting or code block markers."
      tail /\
    forall (input_data : PyValue) (prompt : string),
      _construct_therapy_outline_prompt input_data = inr prompt ->
      exists memory_details patient_details : PyValue,
        py_getitem input_data "memory_details" = inr memory_details /\
        py_getitem input_data "patient_details" = inr patient_details /\
        prompt =
          head ++ chr LF
            ++ join (chr LF)
                 [ "        Memory Details:";
                   "        " ++ py_str memory_details;
                   EmptyString;
                   "        Patient Details:";
                   "        " ++ py_str patient_details;
                   EmptyString;
                   "        Requirements:" ]
            ++ chr LF ++ tail.
Proof.
  pose (sample :=
          match _construct_therapy_outline_prompt
                  (PyDict [ ("memory_details", PyStr EmptyString);
                            ("patient_details", PyStr EmptyString) ]) with
          | inr text => text
          | inl _ => EmptyString
          end).
  exists (String.substring 0 591 sample), (String.substring 683 817 sample).
  split.
  - apply contains_iff. vm_compute. reflexivity.
  - intros input_data prompt H.
    unfold _construct_therapy_outline_prompt in H.
    destruct (py_getitem input_data "memory_details") as [e | md]; [discriminate |].
    destruct (py_getitem input_data "patient_details") as [e | pd]; [discriminate |].
    unfold rbind, ok in H.
    match type of H with inr ?t = _ => set (text := t) in H end.
    injection H as <-.
    exists md, pd. repeat split.
    unfold text. clear text.
    generalize (py_str md), (py_str pd). intros x y.
    cbn [join]. rewrite !append_assoc. vm_compute. reflexivity.
Qed.

(** X16.  A text that starts with a backtick, as a document wrapped in a
    markdown code fence does, is never parsed: it is the [ValueError] of
    a decoding that stops at the first character. *)
Theorem a_fenced_document_is_not_parsed :
  forall rest : string,
    _parse_json_output json.loads (Some (String backtick rest))
    = inl (ValueError
             "Invalid JSON output from OpenAI: Expecting value: line 1 column 1 (char 0)").
Proof.
  intros rest. unfold _parse_json_output.
  assert (H : json.loads (String backtick rest)
              = inl {| msg := "Expecting value"; doc := String backtick rest; pos := 0 |}).
  { unfold json.loads. cbn. reflexivity. }
  rewrite H. reflexivity.
Qed.

(* ------------------------------------------------------------------ *)
(** ** The further properties at concrete inputs *)

(** X1 in the in-memory world, the model answering the example response. *)
Lemma seven_calls_witness :
  List.length
    (calls InMemory.handler
       (generate_and_save_therapy_outline json.loads model.Step_init "m1")
       (InMemory.answering (Some example_response))) = 7.
Proof.
  destruct (@a_save_ends_a_run_of_seven_calls json.loads model.Step_init _ InMemory.handler
              (InMemory.answering (Some example_response)) "m1"
              {| model.patient_id := "p1"; model.memory_id := "m1";
                 model.steps := [ example_step ] |})
    as (memory & patient & prompt & response & choice & others & text & answer
        & _ & _ & _ & Hcalls & _).
  - vm_compute. left. reflexivity.
  - rewrite Hcalls. reflexivity.
Defined.

(** X2 in the same world. *)
Lemma return_witness :
  exists o,
    saved_outlines
      (calls InMemory.handler
         (generate_and_save_therapy_outline json.loads model.Step_init "m1")
         (InMemory.answering (Some example_response))) = [ o ].
Proof.
  destruct (@a_return_is_the_answer_of_the_save json.loads model.Step_init _ InMemory.handler
              (InMemory.answering (Some example_response)) "m1" "outline-0")
    as (o & before & _ & Hsaved & _).
  - vm_compute. reflexivity.
  - now exists o.
Defined.

(** X4 in the same world. *)
Lemma request_witness :
  exists prompt,
    _construct_therapy_outline_prompt
      (PyDict [ ("memory_id", PyStr "m1");
                ("memory_details", memory_dump InMemory.wedding);
                ("patient_details", patient_dump InMemory.ann) ]) = inr prompt /\
    chat_requests
      (calls InMemory.handler
         (generate_and_save_therapy_outline json.loads model.Step_init "m1")
         (InMemory.answering (Some example_response)))
    = [ {| openai.model := "gpt-4o";
           openai.messages := [ system_message; user_message prompt ];
           openai.temperature := 0.2 |} ].
Proof.
  destruct (chat_requests
              (calls InMemory.handler
                 (generate_and_save_therapy_outline json.loads model.Step_init "m1")
                 (InMemory.answering (Some example_response))))
    as [| request rest] eqn:Hl; [vm_compute in Hl; discriminate Hl |].
  destruct (@the_model_is_asked_about_the_memory_and_patient_found
              json.loads model.Step_init _ InMemory.handler
              (InMemory.answering (Some example_response)) "m1" request)
    as (memory & patient & prompt & Hm & Hp & Hprompt & ->).
  - rewrite Hl. now left.
  - vm_compute in Hm. destruct Hm as [Hm | []]. injection Hm as <-.
    vm_compute in Hp. destruct Hp as [<- | []].
    exists prompt. split; [exact Hprompt |].
    destruct rest; [reflexivity | vm_compute in Hl; discriminate Hl].
Defined.

(** X5 in the same world. *)
Lemma patient_request_witness :
  exists memory,
    memory_lookups
      (calls InMemory.handler
         (generate_and_save_therapy_outline json.loads model.Step_init "m1")
         (InMemory.answering (Some example_response))) = [ Some memory ] /\
    "p1" = patient_id memory.
Proof.
  destruct (@the_patient_looked_up_is_the_one_of_the_memory
              json.loads model.Step_init _ InMemory.handler
              (InMemory.answering (Some example_response)) "m1" "p1")
    as (memory & Hm & _ & Hp).
  - vm_compute. left. reflexivity.
  - now exists memory.
Defined.

(** X6 in an in-memory world that holds the same memory under two ids. *)
Lemma same_request_witness :
  hd_error
    (chat_requests
       (calls InMemory.handler
          (generate_and_save_therapy_outline json.loads model.Step_init "m1")
          {| InMemory.memories := [ ("m1", InMemory.wedding); ("m2", InMemory.wedding) ];
             InMemory.patients := [ ("p1", InMemory.ann) ];
             InMemory.scripted := inl (OtherError "APIConnectionError" "Connection error.");
             InMemory.outlines := [];
             InMemory.logged := [] |}))
  = hd_error
      (chat_requests
         (calls InMemory.handler
            (generate_and_save_therapy_outline json.loads model.Step_init "m2")
            {| InMemory.memories := [ ("m1", InMemory.wedding); ("m2", InMemory.wedding) ];
               InMemory.patients := [ ("p1", InMemory.ann) ];
               InMemory.scripted := inl (OtherError "APIConnectionError" "Connection error.");
               InMemory.outlines := [];
               InMemory.logged := [] |})).
Proof.
  set (w := {| InMemory.memories := [ ("m1", InMemory.wedding); ("m2", InMemory.wedding) ];
               InMemory.patients := [ ("p1", InMemory.ann) ];
               InMemory.scripted := inl (OtherError "APIConnectionError" "Connection error.");
               InMemory.outlines := [];
               InMemory.logged := [] |}).
  destruct (chat_requests
              (calls InMemory.handler
                 (generate_and_save_therapy_outline json.loads model.Step_init "m1") w))
    as [| request1 rest1] eqn:H1; [vm_compute in H1; discriminate H1 |].
  destruct (chat_requests
              (calls InMemory.handler
                 (generate_and_save_therapy_outline json.loads model.Step_init "m2") w))
    as [| request2 rest2] eqn:H2; [vm_compute in H2; discriminate H2 |].
  cbn [hd_error]. f_equal.
  apply (@the_request_does_not_carry_the_memory_id
           json.loads model.Step_init _ _ InMemory.handler InMemory.handler w w "m1" "m2"
           InMemory.wedding InMemory.wedding InMemory.ann InMemory.ann).
  - rewrite H1. now left.
  - rewrite H2. now left.
  - vm_compute. left. reflexivity.
  - vm_compute. left. reflexivity.
  - vm_compute. left. reflexivity.
  - vm_compute. left. reflexivity.
  - reflexivity.
  - reflexivity.
Defined.

(** X7 on a payload without [memory_details]. *)
Lemma no_prompt_witness :
  calls InMemory.handler
    (_generate_therapy_outline json.loads (PyDict [ ("patient_details", PyNone) ]))
    (InMemory.answering (Some example_response)) = [] /\
  outcome InMemory.handler
    (_generate_therapy_outline json.loads (PyDict [ ("patient_details", PyNone) ]))
    (InMemory.answering (Some example_response)) = inl (KeyError "memory_details").
Proof.
  destruct (@without_a_prompt_nobody_is_called json.loads _ InMemory.handler
              (InMemory.answering (Some example_response))
              (PyDict [ ("patient_details", PyNone) ])) as [_ Hfail].
  destruct (Hfail (KeyError "memory_details") eq_refl) as (Hcalls & Hout & _).
  now split.
Defined.

(** X8 in an in-memory world whose client answers without choices. *)
Lemma no_choice_witness :
  outcome InMemory.handler
    (generate_and_save_therapy_outline json.loads model.Step_init "m1")
    {| InMemory.memories := [ ("m1", InMemory.wedding) ];
       InMemory.patients := [ ("p1", InMemory.ann) ];
       InMemory.scripted := inr {| openai.choices := [] |};
       InMemory.outlines := [];
       InMemory.logged := [] |}
  = inl (IndexError "list index out of range").
Proof.
  apply (@a_completion_without_choices_is_an_IndexError json.loads model.Step_init
           _ InMemory.handler _ "m1" {| openai.choices := [] |}).
  - vm_compute. left. reflexivity.
  - reflexivity.
Defined.

(** X9 in the in-memory world, the model answering no text. *)
Lemma no_text_witness :
  outcome InMemory.handler
    (generate_and_save_therapy_outline json.loads model.Step_init "m1")
    (InMemory.answering None)
  = inl (TypeError "the JSON object must be str, bytes or bytearray, not NoneType").
Proof.
  apply (@a_choice_without_text_is_a_TypeError json.loads model.Step_init
           _ InMemory.handler (InMemory.answering None) "m1"
           {| openai.choices := [ {| openai.message_content := None |} ] |}
           {| openai.message_content := None |} []).
  - vm_compute. left. reflexivity.
  - reflexivity.
  - reflexivity.
  - vm_compute. reflexivity.
Defined.

(** X10 in the in-memory world, the model answering [not json]. *)
Lemma logged_answer_witness :
  In ("Therapy outline generated by OpenAI: %s", PyStr "not json")
     (logged_calls
        (calls InMemory.handler
           (generate_and_save_therapy_outline json.loads model.Step_init "m1")
           (InMemory.answering (Some "not json")))).
Proof.
  apply (@what_the_model_answered_is_logged json.loads model.Step_init
           _ InMemory.handler (InMemory.answering (Some "not json")) "m1"
           {| openai.choices := [ {| openai.message_content := Some "not json" |} ] |}
           {| openai.message_content := Some "not json" |} []).
  - vm_compute. left. reflexivity.
  - reflexivity.
Defined.

(** X11 on the document of the worked example. *)
Lemma steps_item_by_item_witness :
  steps_of model.Step_init example_document = inr [ example_step ].
Proof.
  apply (@steps_follow_the_array_item_by_item model.Step_init example_document
           [ PyDict
               [ ("step", PyInt 1); ("description", PyStr "d");
                 ("guide", PyList [ PyStr "g1" ]); ("type", PyStr "INTRODUCTION");
                 ("media_urls", PyList []);
                 ("script", PyDict [ ("voice", PyStr "alloy"); ("text", PyStr "t") ]) ] ]
           [ example_step ]).
  - reflexivity.
  - constructor; [| constructor]. eexists. split; [reflexivity |]. vm_compute. reflexivity.
Defined.

(** X12 on an array whose second item is a number: the third, which would
    be refused too, is not reached. *)
Lemma first_refused_witness :
  steps_of model.Step_init
    (PyDict
       [ ("steps",
          PyList
            [ PyDict
                [ ("step", PyInt 1); ("description", PyStr "d");
                  ("guide", PyList [ PyStr "g1" ]); ("type", PyStr "INTRODUCTION");
                  ("media_urls", PyList []);
                  ("script", PyDict [ ("voice", PyStr "alloy"); ("text", PyStr "t") ]) ];
              PyInt 3;
              PyNone ]) ])
  = inl (TypeError "Step() argument after ** must be a mapping, not int").
Proof.
  apply (@the_first_refused_item_decides model.Step_init _
           [ PyDict
               [ ("step", PyInt 1); ("description", PyStr "d");
                 ("guide", PyList [ PyStr "g1" ]); ("type", PyStr "INTRODUCTION");
                 ("media_urls", PyList []);
                 ("script", PyDict [ ("voice", PyStr "alloy"); ("text", PyStr "t") ]) ] ]
           [ PyNone ] (PyInt 3)).
  - reflexivity.
  - intros item [<- | []]. eexists. vm_compute. reflexivity.
  - reflexivity.
Defined.

(** X13 on a document whose [steps] is a text. *)
Lemma text_steps_witness :
  exists m,
    steps_of model.Step_init (PyDict [ ("steps", PyStr "abc") ]) = inl (TypeError m).
Proof.
  destruct (@steps_that_are_not_an_array model.Step_init
              (PyDict [ ("steps", PyStr "abc") ]) (PyStr "abc") eq_refl)
    as (_ & Htext & _).
  exact (Htext "a"%char "bc" eq_refl).
Defined.

(** X14 in an in-memory world whose client raises the error of the
    missing memory. *)
Lemma missing_memory_error_witness :
  In (ValueError "No memory found with ID: m1")
     (failures
        (calls InMemory.handler
           (generate_and_save_therapy_outline json.loads model.Step_init "m1")
           {| InMemory.memories := [ ("m1", InMemory.wedding) ];
              InMemory.patients := [ ("p1", InMemory.ann) ];
              InMemory.scripted := inl (ValueError "No memory found with ID: m1");
              InMemory.outlines := [];
              InMemory.logged := [] |})) \/
  exists kwargs, model.Step_init kwargs = inl (ValueError "No memory found with ID: m1").
Proof.
  apply (@the_missing_memory_error_is_never_raised_by_the_test json.loads model.Step_init
           _ InMemory.handler _ "m1").
  vm_compute. reflexivity.
Defined.
